(** * parsl: memoization and provider status, verified against the sources

    A shallow embedding of

    - [parsl/providers/provider_base.py]: the [JobState] enumeration and the
      [JobStatus] snapshot with its log accessors;
    - [parsl/dataflow/memoization.py]: the [id_for_memo] encoder and the
      [Memoizer] with its lookup table.

    Python values are modelled by inductive types, a call that may raise by
    the [result] type, the mutable lookup table by explicit state passing. *)

From Stdlib Require Import ZArith Lia String Ascii List Bool Sorted Permutation.
From Stdlib Require Import SpecFloat DecimalString.
From stdpp Require Import base option gmap strings.
Import ListNotations.

Local Open Scope Z_scope.
Local Open Scope string_scope.

(** ** Exceptions and results

    Only the class of an exception is kept, not its message. *)

Inductive exn : Type :=
| ValueError
| TypeError
| KeyError
| IndexError
| FileNotFoundError
| PermissionError
| IsADirectoryError
| UnicodeDecodeError
| RecursionError
| UnsupportedOperation.

Inductive result (A : Type) : Type :=
| Ok (a : A)
| Raise (e : exn).

Arguments Ok {A} a.
Arguments Raise {A} e.

(** [result] is a monad; [x ← r; k] runs [k] on the value of [r] and lets an
    exception of [r] through. *)

Definition bind {A B : Type} (k : A -> result B) (r : result A) : result B :=
  match r with
  | Ok a => k a
  | Raise e => Raise e
  end.

#[global] Instance result_ret : MRet result := @Ok.
#[global] Instance result_bind : MBind result := @bind.

(** ** provider_base.py *)

Module provider_base.

(** *** JobState: an Enum whose values are triples *)

Inductive JobState : Type :=
| UNKNOWN | PENDING | RUNNING | CANCELLED | COMPLETED | FAILED | TIMEOUT | HELD.

Definition value (self : JobState) : Z * bool * string :=
  match self with
  | UNKNOWN => (0, false, "UNKNOWN")
  | PENDING => (1, false, "PENDING")
  | RUNNING => (2, false, "RUNNING")
  | CANCELLED => (3, true, "CANCELLED")
  | COMPLETED => (4, true, "COMPLETED")
  | FAILED => (5, true, "FAILED")
  | TIMEOUT => (6, true, "TIMEOUT")
  | HELD => (7, false, "HELD")
  end.

Definition terminal (self : JobState) : bool :=
  let '(_, state, _) := value self in state.

Definition status_name (self : JobState) : string :=
  let '(_, _, state) := value self in state.

(** The members in definition order, as iterating the Enum yields them. *)
Definition members : list JobState :=
  [UNKNOWN; PENDING; RUNNING; CANCELLED; COMPLETED; FAILED; TIMEOUT; HELD].

(** The identifier under which a member is declared (Enum's [name]). *)
Definition name (self : JobState) : string :=
  match self with
  | UNKNOWN => "UNKNOWN" | PENDING => "PENDING" | RUNNING => "RUNNING"
  | CANCELLED => "CANCELLED" | COMPLETED => "COMPLETED" | FAILED => "FAILED"
  | TIMEOUT => "TIMEOUT" | HELD => "HELD"
  end.

(** *** Text files

    A log file is opened with [open(path, 'r')]: in text mode, with the
    default encoding, taken here to be UTF-8, strict error handling and
    universal newlines.  A file is the sequence of its bytes, a [string] of
    one character per byte; a path is mapped to the bytes of its file or to
    the exception that opening it raises.  A Python [str] is represented by
    its UTF-8 encoding, so a character of a text is one to four bytes of the
    [string] that stands for it. *)

Definition filesystem : Type := string -> result string.

Record TextIO : Type := mkTextIO { buffer : string; position : Z }.

Inductive whence : Type := SEEK_SET | SEEK_END.

Definition open (fs : filesystem) (path : string) : result TextIO :=
  content ← fs path; Ok (mkTextIO content 0).

(** The ranges in which the bytes after the first byte of a UTF-8 sequence
    must lie; [None] for a byte that cannot start a sequence. *)
Definition utf8_following (lead : ascii) : option (list (N * N)) :=
  let b := N_of_ascii lead in
  if N.leb b 0x7F%N then Some []
  else if N.ltb b 0xC2%N then None
  else if N.leb b 0xDF%N then Some [(0x80%N, 0xBF%N)]
  else if N.eqb b 0xE0%N then Some [(0xA0%N, 0xBF%N); (0x80%N, 0xBF%N)]
  else if N.eqb b 0xED%N then Some [(0x80%N, 0x9F%N); (0x80%N, 0xBF%N)]
  else if N.leb b 0xEF%N then Some [(0x80%N, 0xBF%N); (0x80%N, 0xBF%N)]
  else if N.eqb b 0xF0%N then Some [(0x90%N, 0xBF%N); (0x80%N, 0xBF%N); (0x80%N, 0xBF%N)]
  else if N.leb b 0xF3%N then Some [(0x80%N, 0xBF%N); (0x80%N, 0xBF%N); (0x80%N, 0xBF%N)]
  else if N.eqb b 0xF4%N then Some [(0x80%N, 0x8F%N); (0x80%N, 0xBF%N); (0x80%N, 0xBF%N)]
  else None.

Inductive utf8_step : Type := Complete | Incomplete | Invalid.

(** The bytes at hand are checked against the ranges; a sequence that ends
    too early is incomplete only if the bytes it has are in range. *)
Fixpoint utf8_follow (ranges : list (N * N)) (s : string) : utf8_step :=
  match ranges with
  | [] => Complete
  | (lo, hi) :: ranges' =>
    match s with
    | EmptyString => Incomplete
    | String c s' =>
      if N.leb lo (N_of_ascii c) && N.leb (N_of_ascii c) hi
      then utf8_follow ranges' s'
      else Invalid
    end
  end.

(** The characters of a byte string, each with the number of bytes it takes
    in the file.  [skip] counts the bytes of the current character still to
    pass.  When more input may follow ([final] false) an incomplete last
    sequence is left for later; at the end of the input it is an error. *)
Fixpoint utf8_decode (final : bool) (skip : nat) (s : string)
  : result (list (string * nat)) :=
  match s with
  | EmptyString => Ok []
  | String c s' =>
    match skip with
    | S skip' => utf8_decode final skip' s'
    | O =>
      match utf8_following c with
      | None => Raise UnicodeDecodeError
      | Some ranges =>
        match utf8_follow ranges s' with
        | Invalid => Raise UnicodeDecodeError
        | Incomplete => if final then Raise UnicodeDecodeError else Ok []
        | Complete =>
          units ← utf8_decode final (length ranges) s';
          Ok ((substring 0 (S (length ranges)) s, S (length ranges)) :: units)
        end
      end
    end
  end.

Definition carriage_return : string := String "013"%char EmptyString.

Definition line_feed : string := String "010"%char EmptyString.

(** Universal newlines: a carriage return followed by a line feed, and a
    carriage return alone, are read as one line feed.  A carriage return at
    the end of input that may continue is held back. *)
Fixpoint universal_newlines (final : bool) (units : list (string * nat))
  : list (string * nat) :=
  match units with
  | [] => []
  | (t, w) :: rest =>
    if String.eqb t carriage_return then
      match rest with
      | (t', w') :: rest' =>
        if String.eqb t' line_feed
        then (line_feed, (w + w')%nat) :: universal_newlines final rest'
        else (line_feed, w) :: universal_newlines final rest
      | [] => if final then [(line_feed, w)] else []
      end
    else (t, w) :: universal_newlines final rest
  end.

Definition decode (final : bool) (s : string) : result (list (string * nat)) :=
  units ← utf8_decode final 0 s; Ok (universal_newlines final units).

Fixpoint text_of (units : list (string * nat)) : string :=
  match units with
  | [] => EmptyString
  | (t, _) :: rest => t ++ text_of rest
  end.

Fixpoint width_of (units : list (string * nat)) : nat :=
  match units with
  | [] => O
  | (_, w) :: rest => (w + width_of rest)%nat
  end.

(** The text layer takes the bytes of the file in chunks of this size when
    it is asked for up to 2047 characters, as it is here. *)
Definition CHUNK_SIZE : nat := 8 * 1024.

(** [f.read(n)] takes chunks until [n] characters are decoded or the file
    ends: an undecodable byte raises if it is in a chunk that was taken, also
    when it lies behind the characters returned, and not otherwise.  [fed] is
    the number of bytes taken so far; [fuel], the length of [rest], bounds the
    number of chunks. *)
Fixpoint read_chunks (fuel fed n : nat) (rest : string)
  : result (list (string * nat)) :=
  units ← decode false (substring 0 fed rest);
  if (n <=? length units)%nat then Ok (firstn n units)
  else
    match fuel with
    | S fuel' =>
      if (fed <? String.length rest)%nat
      then read_chunks fuel' (fed + CHUNK_SIZE) n rest
      else (units ← decode true rest; Ok (firstn n units))
    | O => units ← decode true rest; Ok (firstn n units)
    end.

(** [f.seek(offset, whence)]: offsets are in bytes.  A text file refuses a
    negative offset and any offset from the end other than 0. *)
Definition seek (f : TextIO) (offset : Z) (w : whence) : result TextIO :=
  match w with
  | SEEK_SET =>
    if Z.ltb offset 0 then Raise ValueError
    else Ok (mkTextIO (buffer f) offset)
  | SEEK_END =>
    if Z.eqb offset 0
    then Ok (mkTextIO (buffer f) (Z.of_nat (String.length (buffer f))))
    else Raise UnsupportedOperation
  end.

(** [f.tell()], after a seek: the position in bytes. *)
Definition tell (f : TextIO) : Z := position f.

(** [read f None] is [f.read()], [read f (Some n)] is [f.read(n)], which
    reads to the end when [n] is negative.  Reading starts at the byte the
    file is positioned at, with a fresh decoder, counts characters, and
    returns the text read and the file positioned behind it; it raises
    [UnicodeDecodeError] where the bytes are not UTF-8. *)
Definition read (f : TextIO) (size : option Z) : result (string * TextIO) :=
  let start := Z.to_nat (position f) in
  let rest := substring start (String.length (buffer f) - start) (buffer f) in
  units ← match size with
          | Some n =>
            if Z.ltb n 0 then decode true rest
            else read_chunks (String.length rest) 0 (Z.to_nat n) rest
          | None => decode true rest
          end;
  Ok (text_of units, mkTextIO (buffer f) (position f + Z.of_nat (width_of units))).

(** Text in which bytes and characters are the same thing: every byte is
    ASCII and none is a carriage return. *)
Fixpoint plain_ascii (s : string) : bool :=
  match s with
  | EmptyString => true
  | String c s' =>
    N.ltb (N_of_ascii c) 128 && negb (N.eqb (N_of_ascii c) 13) && plain_ascii s'
  end.

(** The characters of such a text: one byte each. *)
Fixpoint one_byte_units (s : string) : list (string * nat) :=
  match s with
  | EmptyString => []
  | String c s' => (String c EmptyString, 1%nat) :: one_byte_units s'
  end.

(** *** JobStatus *)

Record JobStatus : Type := mkJobStatus {
  state : JobState;
  message : option string;
  exit_code : option Z;
  stdout_path : option string;
  stderr_path : option string
}.

Definition SUMMARY_TRUNCATION_THRESHOLD : Z := 2048.

(** Truth value of an [Optional[str]]: [None] and the empty string are false. *)
Definition truthy (path : option string) : bool :=
  match path with
  | Some (String _ _) => true
  | _ => false
  end.

Definition JobStatus_terminal (self : JobStatus) : bool := terminal (state self).

Definition JobStatus_status_name (self : JobStatus) : string :=
  status_name (state self).

Definition newline : string := String "010"%char EmptyString.

Definition elision : string := newline ++ "..." ++ newline.

Section Files.

Variable fs : filesystem.

(** [except Exception] catches every exception of the model. *)
Definition _read_file (path : string) : result (option string) :=
  match (f ← open fs path; r ← read f None; Ok (fst r)) with
  | Ok s => Ok (Some s)
  | Raise _ => Ok None
  end.

Definition stdout (self : JobStatus) : result (option string) :=
  if truthy (stdout_path self)
  then _read_file (default "" (stdout_path self))
  else Ok None.

Definition stderr (self : JobStatus) : result (option string) :=
  if truthy (stderr_path self)
  then _read_file (default "" (stderr_path self))
  else Ok None.

(** [int(SUMMARY_TRUNCATION_THRESHOLD / 2)] rounds the quotient towards zero.
    [size] is a number of bytes, [read] is asked for a number of
    characters. *)
Definition _read_summary_body (f : TextIO) : result string :=
  f ← seek f 0 SEEK_END;
  let size := tell f in
  f ← seek f 0 SEEK_SET;
  if size >? SUMMARY_TRUNCATION_THRESHOLD then
    let half_threshold := Z.quot SUMMARY_TRUNCATION_THRESHOLD 2 in
    r ← read f (Some half_threshold);
    let '(head, f) := r in
    f ← seek f (size - half_threshold) SEEK_SET;
    r ← read f (Some half_threshold);
    let '(tail, f) := r in
    Ok (head ++ elision ++ tail)
  else
    f ← seek f 0 SEEK_SET;
    r ← read f None;
    Ok (fst r).

(** Only [FileNotFoundError] is caught; any other exception leaves the
    function. *)
Definition _read_summary (path : string) : result (option string) :=
  match path with
  | EmptyString => Ok None
  | _ =>
    match (f ← open fs path; _read_summary_body f) with
    | Ok s => Ok (Some s)
    | Raise FileNotFoundError => Ok None
    | Raise e => Raise e
    end
  end.

Definition stdout_summary (self : JobStatus) : result (option string) :=
  if truthy (stdout_path self)
  then _read_summary (default "" (stdout_path self))
  else Ok None.

Definition stderr_summary (self : JobStatus) : result (option string) :=
  if truthy (stderr_path self)
  then _read_summary (default "" (stderr_path self))
  else Ok None.

End Files.

(** [str(state)]: an Enum member prints as the class name, a dot and the
    name of the member; [format] uses it for the [{}] fields. *)
Definition JobState_str (self : JobState) : string := "JobState." ++ name self.

Definition __repr__ (self : JobStatus) : string :=
  match message self with
  | Some m => JobState_str (state self) ++ " (" ++ m ++ ")"
  | None => JobState_str (state self)
  end.

(** *** ExecutionProvider: the resource hints

    The two attributes start as the class attributes, [None]; the setters
    store what they are given. *)

Record ExecutionProvider : Type := mkExecutionProvider {
  _cores_per_node : option Z;
  _mem_per_node : option spec_float
}.

(** A provider on which no setter has been called. *)
Definition ExecutionProvider_new : ExecutionProvider :=
  mkExecutionProvider None None.

Definition mem_per_node (self : ExecutionProvider) : option spec_float :=
  _mem_per_node self.

Definition set_mem_per_node (self : ExecutionProvider) (value : spec_float)
  : ExecutionProvider :=
  mkExecutionProvider (_cores_per_node self) (Some value).

Definition cores_per_node (self : ExecutionProvider) : option Z :=
  _cores_per_node self.

Definition set_cores_per_node (self : ExecutionProvider) (value : Z)
  : ExecutionProvider :=
  mkExecutionProvider (Some value) (_mem_per_node self).

End provider_base.

(** ** memoization.py *)

Module memoization.

Definition bytes : Type := list Byte.byte.

(** *** Python values

    [atom] holds the hashable values, the ones a dict can have as keys;
    [value] adds lists and dicts.  A dict is the list of its entries in
    insertion order.  A float is an IEEE 754 value ([spec_float], which has
    the NaN and the infinities), a function is named by its qualified name,
    [PyObject cls] is an instance of a class [cls] that derives from [object]
    alone and defines no ordering.  Tuples and sets are not modelled. *)

Inductive atom : Type :=
| PyStr (s : string)
| PyInt (n : Z)
| PyBool (b : bool)
| PyFloat (x : spec_float)
| PyNone
| PyFunction (qualname : string)
| PyBytes (b : bytes)
| PyObject (cls : string).

#[warnings="-register-all"]
Inductive value : Type :=
| Atom (a : atom)
| PyList (items : list value)
| PyDict (items : list (atom * value)).

Coercion Atom : atom >-> value.

Inductive pytype : Type :=
| t_object | t_str | t_int | t_bool | t_float | t_NoneType | t_FunctionType
| t_bytes | t_list | t_dict
| t_class (name : string).

#[global] Instance pytype_eq_dec : EqDecision pytype.
Proof. solve_decision. Defined.

(** [type(obj)] *)
Definition type (obj : value) : pytype :=
  match obj with
  | Atom (PyStr _) => t_str
  | Atom (PyInt _) => t_int
  | Atom (PyBool _) => t_bool
  | Atom (PyFloat _) => t_float
  | Atom PyNone => t_NoneType
  | Atom (PyFunction _) => t_FunctionType
  | Atom (PyBytes _) => t_bytes
  | Atom (PyObject cls) => t_class cls
  | PyList _ => t_list
  | PyDict _ => t_dict
  end.

(** [cls.__mro__]: [bool] derives from [int], every other class of the model
    from [object] directly. *)
Definition mro (cls : pytype) : list pytype :=
  match cls with
  | t_object => [t_object]
  | t_bool => [t_bool; t_int; t_object]
  | _ => [cls; t_object]
  end.

(** *** Ordering of keys: the [<] that [sorted] uses

    Text is ordered by code points, bytes by their values, numbers (int, bool
    and float together) by their exact values; a NaN is neither below nor
    above anything.  Every other pair of operands of [atom] raises
    [TypeError].  Keys of the kinds that [atom] leaves out (tuples,
    frozensets, instances of classes that define [__lt__]) have orderings of
    their own: what is proved of [py_lt] and of the sorting of keys is proved
    of the keys of [atom] and says nothing of those. *)

Inductive number : Type :=
| NaN
| Inf (negative : bool)
| Fin (m e : Z).  (* m * 2^e *)

Definition number_of (a : atom) : option number :=
  match a with
  | PyInt n => Some (Fin n 0)
  | PyBool b => Some (Fin (if b then 1 else 0) 0)
  | PyFloat (S754_zero _) => Some (Fin 0 0)
  | PyFloat (S754_infinity s) => Some (Inf s)
  | PyFloat S754_nan => Some NaN
  | PyFloat (S754_finite s m e) => Some (Fin (if s then Z.neg m else Z.pos m) e)
  | _ => None
  end.

Definition number_ltb (x y : number) : bool :=
  match x, y with
  | NaN, _ | _, NaN => false
  | Inf true, Inf true => false
  | Inf true, _ => true
  | Inf false, _ => false
  | Fin _ _, Inf s => negb s
  | Fin m1 e1, Fin m2 e2 =>
    let e := Z.min e1 e2 in Z.ltb (m1 * 2 ^ (e1 - e)) (m2 * 2 ^ (e2 - e))
  end.

Fixpoint bytes_ltb (a b : bytes) : bool :=
  match a, b with
  | _, [] => false
  | [], _ :: _ => true
  | x :: a', y :: b' =>
    match N.compare (Byte.to_N x) (Byte.to_N y) with
    | Lt => true
    | Gt => false
    | Eq => bytes_ltb a' b'
    end
  end.

Definition py_lt (a b : atom) : result bool :=
  match a, b with
  | PyStr s1, PyStr s2 => Ok (String.ltb s1 s2)
  | PyBytes b1, PyBytes b2 => Ok (bytes_ltb b1 b2)
  | _, _ =>
    match number_of a, number_of b with
    | Some x, Some y => Ok (number_ltb x y)
    | _, _ => Raise TypeError
    end
  end.

(** *** sorted

    [sorted] is stable and compares with [<] only.  It is modelled as a stable
    insertion sort in which a comparison that raises ends the sort: an element
    goes in front of the first later element that is not below it.  Where [<]
    is a strict total order on the elements every stable sort gives this
    result; on two elements the one comparison made, of the second with the
    first, is the one CPython makes.  Where [<] is not a total order, as with
    a NaN among three or more numbers, the order of the result depends on
    which pairs a sort compares, and CPython's sort may give another order
    than this one; the result is a permutation of the input in either.

    The elements carry their key under [key]: sorting a dict sorts its key
    objects, and each key object stands for its own entry. *)

Section Sorted.

Context {A : Type} (key : A -> atom).

Fixpoint insert (x : A) (l : list A) : result (list A) :=
  match l with
  | [] => Ok [x]
  | y :: l' =>
    below ← py_lt (key y) (key x);
    if below : bool then (r ← insert x l'; Ok (y :: r)) else Ok (x :: y :: l')
  end.

Fixpoint sorted (l : list A) : result (list A) :=
  match l with
  | [] => Ok []
  | x :: l' => s ← sorted l'; insert x s
  end.

End Sorted.

(** [a] is strictly below [b]: [a < b] holds and [b < a] does not. *)
Definition below (a b : atom) : Prop :=
  py_lt a b = Ok true /\ py_lt b a = Ok false.

(** The entries are in strictly ascending order of their keys: each key is
    strictly below every later key. *)
Definition ascending (entries : list (atom * value)) : Prop :=
  StronglySorted (fun x y => below (fst x) (fst y)) entries.

(** The key of the entry is text. *)
Definition text_key (entry : atom * value) : Prop :=
  exists t : string, fst entry = PyStr t.

(** *** singledispatch

    [id_for_memo] is a generic function: the implementation used for [obj] is
    the one registered for the first class of [type(obj).__mro__] that has
    one; the decorated function itself is the implementation for [object]. *)

Inductive implementation : Type :=
| impl_id_for_memo
| impl_id_for_memo_serialize
| impl_id_for_memo_list
| impl_id_for_memo_dict.

Definition registry : list (pytype * implementation) :=
  [ (t_object, impl_id_for_memo);
    (t_NoneType, impl_id_for_memo_serialize);
    (t_FunctionType, impl_id_for_memo_serialize);
    (t_float, impl_id_for_memo_serialize);
    (t_int, impl_id_for_memo_serialize);
    (t_str, impl_id_for_memo_serialize);
    (t_list, impl_id_for_memo_list);
    (t_dict, impl_id_for_memo_dict) ].

Definition registered (cls : pytype) : option implementation :=
  snd <$> List.find (fun entry => bool_decide (fst entry = cls)) registry.

Fixpoint find_impl (classes : list pytype) : implementation :=
  match classes with
  | [] => impl_id_for_memo
  | cls :: rest =>
    match registered cls with
    | Some impl => impl
    | None => find_impl rest
    end
  end.

Definition dispatch (cls : pytype) : implementation := find_impl (mro cls).

(** *** The encoder *)

Section Encoder.

(** [serialize_object] belongs to [parsl.executors.serialize]; it returns a
    list of buffers or raises. *)
Variable serialize_object : value -> result (list bytes).

(** [buffers[0]] *)
Definition getitem0 (buffers : list bytes) : result bytes :=
  match buffers with
  | b :: _ => Ok b
  | [] => Raise IndexError
  end.

Definition id_for_memo_serialize (obj : value) : result bytes :=
  serialize_object obj ≫= getitem0.

(** The recursive calls go through the generic function, here the argument
    [id_for_memo]. *)
Section Rules.

Variable id_for_memo : value -> result bytes.

(** The loop of [id_for_memo_list]: the encodings of the elements, in order. *)
Fixpoint normalize_list (denormalized_list : list value) : result (list bytes) :=
  match denormalized_list with
  | [] => Ok []
  | e :: rest =>
    b ← id_for_memo e;
    normalized_list ← normalize_list rest;
    Ok (b :: normalized_list)
  end.

Definition id_for_memo_list (denormalized_list : list value) : result bytes :=
  normalized_list ← normalize_list denormalized_list;
  serialize_object (PyList (map (fun b => Atom (PyBytes b)) normalized_list))
    ≫= getitem0.

(** The loop of [id_for_memo_dict] over the sorted keys: the encoding of each
    key followed by the encoding of its value.  [denormalized_dict[k]], for a
    key [k] that the dict itself supplied, is the value of the entry of [k]. *)
Fixpoint normalize_items (keys : list (atom * value)) : result (list bytes) :=
  match keys with
  | [] => Ok []
  | k :: rest =>
    a ← id_for_memo (Atom (fst k));
    b ← id_for_memo (snd k);
    normalized_list ← normalize_items rest;
    Ok (a :: b :: normalized_list)
  end.

Definition id_for_memo_dict (denormalized_dict : list (atom * value)) : result bytes :=
  keys ← sorted fst denormalized_dict;
  normalized_list ← normalize_items keys;
  serialize_object (PyList (map (fun b => Atom (PyBytes b)) normalized_list))
    ≫= getitem0.

(** One call of the generic function.  Only a list is dispatched to
    [id_for_memo_list] and only a dict to [id_for_memo_dict]; the inner
    matches have no other case to take. *)
Definition id_for_memo_call (obj : value) : result bytes :=
  match dispatch (type obj) with
  | impl_id_for_memo => Raise ValueError
  | impl_id_for_memo_serialize => id_for_memo_serialize obj
  | impl_id_for_memo_list =>
    match obj with
    | PyList l => id_for_memo_list l
    | _ => Raise TypeError
    end
  | impl_id_for_memo_dict =>
    match obj with
    | PyDict d => id_for_memo_dict d
    | _ => Raise TypeError
    end
  end.

End Rules.

(** Nesting depth of a value: the number of calls a recursion through it
    stacks up. *)
Fixpoint depth (obj : value) : nat :=
  match obj with
  | Atom _ => 0
  | PyList l => S (list_max (map depth l))
  | PyDict d => S (list_max (map (fun kv => depth (snd kv)) d))
  end.

(** The recursion of [id_for_memo], bounded by the number of calls that may
    be stacked up; a value never needs more of them than its depth plus one
    ([id_for_memo_within_enough]). *)
Fixpoint id_for_memo_within (budget : nat) (obj : value) : result bytes :=
  match budget with
  | O => Raise RecursionError
  | S budget' => id_for_memo_call (id_for_memo_within budget') obj
  end.

Definition id_for_memo (obj : value) : result bytes :=
  id_for_memo_within (S (depth obj)) obj.

End Encoder.

(** *** Task descriptors and the Memoizer *)

(** The entries of a task dict that the Memoizer reads or writes.  The entry
    ['hashsum'] holds [None] or a hash string. *)
Record Task : Type := mkTask {
  func_name : value;
  fn_hash : value;
  args : value;
  kwargs : value;
  env : value;
  memoize : bool;
  hashsum : option string
}.

(** [task['hashsum'] = h] *)
Definition set_hashsum (task : Task) (h : option string) : Task :=
  mkTask (func_name task) (fn_hash task) (args task) (kwargs task) (env task)
         (memoize task) h.

(** The lookup table is a dict; its keys are what ['hashsum'] can hold.  The
    attribute [dfk] is stored and never read, it is left out. *)
Record Memoizer : Type := mkMemoizer {
  self_memoize : bool;
  memo_lookup_table : gmap (option string) value
}.

(** [Memoizer(dfk, memoize, checkpoint)] *)
Definition __init__ (memoize : bool) (checkpoint : gmap (option string) value)
  : Memoizer :=
  if memoize
  then mkMemoizer memoize checkpoint
  else mkMemoizer memoize ∅.

Section Memo.

Variable serialize_object : value -> result (list bytes).

(** [hashlib.md5(x).hexdigest()] *)
Variable md5_hexdigest : bytes -> string.

Definition make_hash (task : Task) : result string :=
  t0 ← id_for_memo serialize_object (func_name task);
  t1 ← id_for_memo serialize_object (fn_hash task);
  t2 ← id_for_memo serialize_object (args task);
  t3 ← id_for_memo serialize_object (kwargs task);
  t4 ← id_for_memo serialize_object (env task);
  let x := concat [t0; t1; t2; t3; t4] in
  let hashedsum := md5_hexdigest x in
  Ok hashedsum.

(** The methods return the Memoizer and the task dict as the call leaves them,
    and what the call returns or raises. *)
Definition check_memo (self : Memoizer) (task_id : Z) (task : Task)
  : Memoizer * Task * result (bool * value) :=
  if negb (self_memoize self) || negb (memoize task) then
    (self, set_hashsum task None, Ok (false, Atom PyNone))
  else
    match make_hash task with
    | Raise e => (self, task, Raise e)
    | Ok hashsum =>
      let '(present, result) :=
        match memo_lookup_table self !! Some hashsum with
        | Some cached => (true, cached)
        | None => (false, Atom PyNone)
        end in
      (self, set_hashsum task (Some hashsum), Ok (present, result))
    end.

End Memo.

Definition hash_lookup (self : Memoizer) (hashsum : option string)
  : Memoizer * result value :=
  match memo_lookup_table self !! hashsum with
  | Some r => (self, Ok r)
  | None => (self, Raise KeyError)
  end.

(** Both branches of the membership test store [r]. *)
Definition update_memo (self : Memoizer) (task_id : Z) (task : Task) (r : value)
  : Memoizer :=
  if negb (self_memoize self) || negb (memoize task) then self
  else if bool_decide (is_Some (memo_lookup_table self !! hashsum task)) then
    mkMemoizer (self_memoize self) (<[hashsum task := r]> (memo_lookup_table self))
  else
    mkMemoizer (self_memoize self) (<[hashsum task := r]> (memo_lookup_table self)).

(** *** Notions used to state properties of the encoder *)

(** [part x obj]: [x] is [obj] or occurs in it as an element, a key or a
    value, at any depth. *)
Inductive part (x : value) : value -> Prop :=
| part_self : part x x
| part_element (l : list value) (e : value) :
    In e l -> part x e -> part x (PyList l)
| part_key (d : list (atom * value)) (k : atom * value) :
    In k d -> part x (Atom (fst k)) -> part x (PyDict d)
| part_value (d : list (atom * value)) (k : atom * value) :
    In k d -> part x (snd k) -> part x (PyDict d).

(** No dict occurs in the value. *)
Fixpoint dict_free (obj : value) : bool :=
  match obj with
  | Atom _ => true
  | PyList l => forallb dict_free l
  | PyDict _ => false
  end.

(** The kinds of keys of [atom] that [<] orders among themselves: text,
    bytes and numbers; no other key of [atom] can be compared. *)
Inductive ordered_kind : Type := kind_text | kind_bytes | kind_number.

Definition kind_of (a : atom) : option ordered_kind :=
  match a with
  | PyStr _ => Some kind_text
  | PyBytes _ => Some kind_bytes
  | PyInt _ | PyBool _ | PyFloat _ => Some kind_number
  | PyNone | PyFunction _ | PyObject _ => None
  end.

(** The entries of a dict laid out as a list: each key followed by its
    value. *)
Definition interleave (entries : list (atom * value)) : list value :=
  flat_map (fun k => [Atom (fst k); snd k]) entries.

(** The serializer tells values apart: the first buffers of two values are
    equal only if the values are. *)
Definition tells_apart (serialize_object : value -> result (list bytes)) : Prop :=
  forall (x y : value) (b : bytes),
    id_for_memo_serialize serialize_object x = Ok b ->
    id_for_memo_serialize serialize_object y = Ok b -> x = y.

End memoization.

(** ** Instances for the examples

    The theorems below hold for every serializer and every digest.  Their
    examples are run with the two functions of this section. *)

Module sample.

Import memoization.

Definition decimal (n : Z) : string := NilZero.string_of_int (Z.to_int n).

Definition sized (tag : string) (payload : string) : string :=
  tag ++ decimal (Z.of_nat (String.length payload)) ++ ":" ++ payload.

Definition float_text (x : spec_float) : string :=
  match x with
  | S754_zero s => if s then "-0" else "0"
  | S754_infinity s => if s then "-inf" else "inf"
  | S754_nan => "nan"
  | S754_finite s m e =>
    (if s then "-" else "") ++ decimal (Z.pos m) ++ "p" ++ decimal e
  end.

Definition atom_text (a : atom) : string :=
  match a with
  | PyStr s => sized "s" s
  | PyInt n => "i" ++ decimal n ++ "e"
  | PyBool b => if b then "T" else "F"
  | PyFloat x => "f" ++ float_text x ++ "e"
  | PyNone => "N"
  | PyFunction q => sized "c" q
  | PyBytes b => sized "b" (string_of_list_byte b)
  | PyObject cls => sized "o" cls
  end.

Fixpoint value_text (obj : value) : string :=
  match obj with
  | Atom a => atom_text a
  | PyList l => "l" ++ String.concat "" (map value_text l) ++ "e"
  | PyDict d =>
    "d" ++ String.concat "" (map (fun kv => atom_text (fst kv) ++ value_text (snd kv)) d)
        ++ "e"
  end.

(** Modelled from the spec: the serializer [serialize_object] of
    [parsl.executors.serialize], which is not among the sources; the spec has
    it give the byte-exact serialization of a value.  This one writes a
    value in a prefix-free text form and returns it as the only buffer. *)
Definition serialize_object (obj : value) : result (list bytes) :=
  Ok [list_byte_of_string (value_text obj)].

(** In the place of [hashlib.md5(x).hexdigest()]: the length of the input and
    the sum of its bytes, in decimal. *)
Definition hexdigest (x : bytes) : string :=
  decimal (Z.of_nat (length x)) ++ "-"
    ++ decimal (Z.of_N (fold_right (fun b acc => (Byte.to_N b + acc)%N) 0%N x)).

(** The task of the end-to-end scenario: [f(1, 2)] in environment ["e"]. *)
Definition task_f : Task :=
  mkTask (PyStr "f") (PyStr "h1") (PyList [Atom (PyInt 1); Atom (PyInt 2)])
         (PyDict []) (PyStr "e") true None.

Definition task_f_hash : string :=
  Eval vm_compute in
    match make_hash serialize_object hexdigest task_f with
    | Ok h => h
    | Raise _ => ""
    end.

(** A task whose arguments hold an object of an unregistered class. *)
Definition task_g : Task :=
  mkTask (PyStr "g") (PyStr "h2") (PyList [Atom (PyObject "Widget")])
         (PyDict []) (PyStr "e") true None.

(** The dict [{"a": 3, "b": 4}] and the same entries inserted in the other
    order. *)
Definition dict_ab : list (atom * value) :=
  [(PyStr "a", Atom (PyInt 3)); (PyStr "b", Atom (PyInt 4))].

Definition dict_ba : list (atom * value) :=
  [(PyStr "b", Atom (PyInt 4)); (PyStr "a", Atom (PyInt 3))].

(** The float [1.0]: 2^52 * 2^-52. *)
Definition float_one : spec_float := S754_finite false 4503599627370496 (-52).

(** The dict [{nan: 1, 1.0: 2}], with [nan = float('nan')], and the same
    entries inserted in the other order. *)
Definition dict_nan_one : list (atom * value) :=
  [(PyFloat S754_nan, Atom (PyInt 1)); (PyFloat float_one, Atom (PyInt 2))].

Definition dict_one_nan : list (atom * value) :=
  [(PyFloat float_one, Atom (PyInt 2)); (PyFloat S754_nan, Atom (PyInt 1))].

(** A text of [n] characters. *)
Fixpoint filled (n : nat) : string :=
  match n with
  | O => ""
  | S n' => String "x" (filled n')
  end.

(** [n] copies of a text. *)
Fixpoint repeated (n : nat) (s : string) : string :=
  match n with
  | O => ""
  | S n' => s ++ repeated n' s
  end.

(** The two bytes of U+00E9, e with acute accent, in UTF-8. *)
Definition e_acute : string := String "195"%char (String "169"%char EmptyString).

(** A log of 4000 bytes: 2000 times the letter U+00E9. *)
Definition accented : string := repeated 2000 e_acute.

(** A log of 4000 bytes in which the letters U+00E9 start at the odd
    offsets. *)
Definition shifted : string := "x" ++ repeated 1999 e_acute ++ "x".

(** A log of 2048 bytes whose first line ends in carriage return and line
    feed. *)
Definition with_crlf : string :=
  "a" ++ provider_base.carriage_return ++ provider_base.line_feed ++ repeated 2045 "x".

(** A log of 2048 bytes that is not UTF-8. *)
Definition undecodable : string := String "255"%char (repeated 2047 "x").

(** A failed job with both logs at [path]. *)
Definition failed_job (path : string) : provider_base.JobStatus :=
  provider_base.mkJobStatus provider_base.FAILED None (Some 1) (Some path) (Some path).

(** A file system in which every path holds [content]. *)
Definition holding (content : string) : provider_base.filesystem :=
  fun _ => Ok content.

(** A file system in which every access raises [e]. *)
Definition failing (e : exn) : provider_base.filesystem :=
  fun _ => Raise e.

(** *** A serializer that tells values apart

    It serializes what [id_for_memo] hands to a serializer, an atom or a list
    of byte strings, as the bits of its number in an enumeration of these
    values, and raises on everything else. *)

#[global] Instance byte_eq_dec : EqDecision Byte.byte := Byte.byte_eq_dec.

#[global] Instance byte_countable : Countable Byte.byte :=
  inj_countable Byte.to_N Byte.of_N Byte.of_to_N.

#[global] Instance spec_float_eq_dec : EqDecision spec_float.
Proof. solve_decision. Defined.

Definition spec_float_to_sum (x : spec_float) : bool + bool + unit + bool * positive * Z :=
  match x with
  | S754_zero s => inl (inl (inl s))
  | S754_infinity s => inl (inl (inr s))
  | S754_nan => inl (inr tt)
  | S754_finite s m e => inr (s, m, e)
  end.

Definition spec_float_of_sum (x : bool + bool + unit + bool * positive * Z) : spec_float :=
  match x with
  | inl (inl (inl s)) => S754_zero s
  | inl (inl (inr s)) => S754_infinity s
  | inl (inr _) => S754_nan
  | inr (s, m, e) => S754_finite s m e
  end.

#[global] Instance spec_float_countable : Countable spec_float :=
  inj_countable' spec_float_to_sum spec_float_of_sum
    (fun x => match x with
              | S754_zero _ | S754_infinity _ | S754_nan | S754_finite _ _ _ => eq_refl
              end).

#[global] Instance atom_eq_dec : EqDecision atom.
Proof. solve_decision. Defined.

Definition atom_to_sum (a : atom)
  : string + Z + bool + spec_float + unit + string + bytes + string :=
  match a with
  | PyStr s => inl (inl (inl (inl (inl (inl (inl s))))))
  | PyInt n => inl (inl (inl (inl (inl (inl (inr n))))))
  | PyBool b => inl (inl (inl (inl (inl (inr b)))))
  | PyFloat x => inl (inl (inl (inl (inr x))))
  | PyNone => inl (inl (inl (inr tt)))
  | PyFunction q => inl (inl (inr q))
  | PyBytes b => inl (inr b)
  | PyObject cls => inr cls
  end.

Definition atom_of_sum
    (x : string + Z + bool + spec_float + unit + string + bytes + string) : atom :=
  match x with
  | inl (inl (inl (inl (inl (inl (inl s)))))) => PyStr s
  | inl (inl (inl (inl (inl (inl (inr n)))))) => PyInt n
  | inl (inl (inl (inl (inl (inr b))))) => PyBool b
  | inl (inl (inl (inl (inr x)))) => PyFloat x
  | inl (inl (inl (inr _))) => PyNone
  | inl (inl (inr q)) => PyFunction q
  | inl (inr b) => PyBytes b
  | inr cls => PyObject cls
  end.

#[global] Instance atom_countable : Countable atom :=
  inj_countable' atom_to_sum atom_of_sum
    (fun a => match a with
              | PyStr _ | PyInt _ | PyBool _ | PyFloat _ | PyNone | PyFunction _
              | PyBytes _ | PyObject _ => eq_refl
              end).

(** The byte string of an element of a normalized list. *)
Definition as_bytes (obj : value) : option bytes :=
  match obj with
  | Atom (PyBytes b) => Some b
  | _ => None
  end.

Fixpoint all_bytes (l : list value) : option (list bytes) :=
  match l with
  | [] => Some []
  | e :: rest =>
    match as_bytes e, all_bytes rest with
    | Some b, Some bs => Some (b :: bs)
    | _, _ => None
    end
  end.

Definition flat_view (obj : value) : option (atom + list bytes) :=
  match obj with
  | Atom a => Some (inl a)
  | PyList l => inr <$> all_bytes l
  | PyDict _ => None
  end.

(** The bits of a positive number, lowest first, one per byte. *)
Fixpoint positive_bytes (p : positive) : bytes :=
  match p with
  | xH => []
  | xO q => Byte.x00 :: positive_bytes q
  | xI q => Byte.x01 :: positive_bytes q
  end.

Definition serialize_apart (obj : value) : result (list bytes) :=
  match flat_view obj with
  | Some v => Ok [positive_bytes (encode v)]
  | None => Raise TypeError
  end.

End sample.

Import provider_base memoization.


(** ** Facts about strings *)

Lemma substring_length (s : string) :
  forall n m, String.length (substring n m s) = Nat.min m (String.length s - n).
Proof.
  induction s as [|c s IH]; intros [|n] [|m]; simpl; try reflexivity.
  - rewrite IH. rewrite Nat.sub_0_r. reflexivity.
  - rewrite IH. reflexivity.
  - rewrite IH. reflexivity.
Qed.

Lemma substring_all (s : string) : substring 0 (String.length s) s = s.
Proof. induction s as [|c s IH]; simpl; [reflexivity | now rewrite IH]. Qed.

Lemma append_length (s1 s2 : string) :
  String.length (s1 ++ s2) = (String.length s1 + String.length s2)%nat.
Proof. induction s1 as [|c s1 IH]; simpl; [reflexivity | now rewrite IH]. Qed.

Lemma substring_split (s : string) :
  forall n a b, (n + a + b <= String.length s)%nat ->
    substring n (a + b) s = substring n a s ++ substring (n + a) b s.
Proof.
  induction s as [|c s IH]; intros n a b H.
  - destruct n, a, b; simpl in *; try lia; reflexivity.
  - destruct n as [|n].
    + destruct a as [|a]; [reflexivity|].
      simpl in *. rewrite (IH 0%nat a b) by lia. reflexivity.
    + simpl in *. apply IH. lia.
Qed.

(** ** provider_base.py: the job states *)

(** C5. Of the eight job states, [terminal] is true exactly for CANCELLED,
    COMPLETED, FAILED and TIMEOUT, and false for UNKNOWN, PENDING, RUNNING and
    HELD; [status_name] is the name under which the state is declared, and
    there is no ninth state. *)
Theorem JobState_terminal_status_name :
  (forall s : JobState, In s members) /\
  length members = 8%nat /\ List.NoDup members /\
  (forall s : JobState,
     terminal s = true <-> In s [CANCELLED; COMPLETED; FAILED; TIMEOUT]) /\
  (forall s : JobState,
     terminal s = false <-> In s [UNKNOWN; PENDING; RUNNING; HELD]) /\
  (forall s : JobState, status_name s = name s) /\
  map status_name members =
    ["UNKNOWN"; "PENDING"; "RUNNING"; "CANCELLED"; "COMPLETED"; "FAILED";
     "TIMEOUT"; "HELD"].
Proof.
  split; [intros []; simpl; tauto|].
  split; [reflexivity|].
  split.
  { unfold members. repeat constructor; simpl; intuition discriminate. }
  split.
  { intros s; split.
    - destruct s; simpl; intros H; try discriminate H; tauto.
    - destruct s; simpl; intros H; try reflexivity;
        repeat (destruct H as [H|H]; [discriminate H|]); destruct H. }
  split.
  { intros s; split.
    - destruct s; simpl; intros H; try discriminate H; tauto.
    - destruct s; simpl; intros H; try reflexivity;
        repeat (destruct H as [H|H]; [discriminate H|]); destruct H. }
  split; [intros []; reflexivity | reflexivity].
Qed.

(** ** provider_base.py: the text layer on plain ASCII *)

Lemma substring_0_0 (s : string) : substring 0 0 s = "".
Proof. destruct s; reflexivity. Qed.

Lemma substring_substring (s : string) :
  forall p m n : nat,
    substring 0 n (substring p m s) = substring p (Nat.min n m) s.
Proof.
  induction s as [|c s IH]; intros p m n.
  - destruct p, m, n; reflexivity.
  - destruct p as [|p].
    + destruct m as [|m]; [destruct n; reflexivity|].
      destruct n as [|n]; [reflexivity|].
      simpl. rewrite (IH 0%nat m n). reflexivity.
    + simpl. apply IH.
Qed.

Lemma plain_ascii_substring (s : string) :
  forall p m : nat, plain_ascii s = true -> plain_ascii (substring p m s) = true.
Proof.
  induction s as [|c s IH]; intros p m H.
  - destruct p, m; reflexivity.
  - simpl in H. apply andb_prop in H as [Hc Hs].
    destruct p as [|p]; [|simpl; now apply IH].
    destruct m as [|m]; [reflexivity|].
    simpl. rewrite Hc. simpl. now apply IH.
Qed.

Lemma utf8_decode_plain (final : bool) (s : string) :
  plain_ascii s = true -> utf8_decode final 0 s = Ok (one_byte_units s).
Proof.
  induction s as [|c s IH]; intros H; [reflexivity|].
  simpl in H. apply andb_prop in H as [Hc Hs]. apply andb_prop in Hc as [Hlt _].
  apply N.ltb_lt in Hlt.
  cbn [utf8_decode]. unfold utf8_following.
  replace (N.leb (N_of_ascii c) 127) with true by (symmetry; apply N.leb_le; lia).
  cbn [utf8_follow length]. rewrite (IH Hs).
  cbn [mbind result_bind bind substring]. now rewrite substring_0_0.
Qed.

Lemma universal_newlines_plain (final : bool) (s : string) :
  plain_ascii s = true ->
  universal_newlines final (one_byte_units s) = one_byte_units s.
Proof.
  induction s as [|c s IH]; intros H; [reflexivity|].
  simpl in H. apply andb_prop in H as [Hc Hs]. apply andb_prop in Hc as [_ Hcr].
  cbn [one_byte_units universal_newlines].
  replace (String.eqb (String c "") carriage_return) with false.
  - now rewrite (IH Hs).
  - symmetry. apply String.eqb_neq. intros Heq. injection Heq as ->.
    discriminate Hcr.
Qed.

Lemma decode_plain (final : bool) (s : string) :
  plain_ascii s = true -> decode final s = Ok (one_byte_units s).
Proof.
  intros H. unfold decode. rewrite (utf8_decode_plain final s H).
  cbn [mbind result_bind bind]. now rewrite universal_newlines_plain.
Qed.

Lemma text_of_one_byte_units (s : string) : text_of (one_byte_units s) = s.
Proof. induction s as [|c s IH]; [reflexivity|]. simpl. now rewrite IH. Qed.

Lemma width_of_one_byte_units (s : string) :
  width_of (one_byte_units s) = String.length s.
Proof. induction s as [|c s IH]; [reflexivity|]. simpl. now rewrite IH. Qed.

Lemma length_one_byte_units (s : string) :
  length (one_byte_units s) = String.length s.
Proof. induction s as [|c s IH]; [reflexivity|]. simpl. now rewrite IH. Qed.

Lemma firstn_one_byte_units (s : string) :
  forall n : nat, firstn n (one_byte_units s) = one_byte_units (substring 0 n s).
Proof.
  induction s as [|c s IH]; intros [|n]; try reflexivity.
  simpl. now rewrite IH.
Qed.

(** On plain ASCII the chunks do not matter: [f.read(n)] returns the next
    [n] bytes. *)
Lemma read_chunks_plain (rest : string) (n : nat) :
  plain_ascii rest = true ->
  forall fuel fed : nat,
    read_chunks fuel fed n rest = Ok (one_byte_units (substring 0 n rest)).
Proof.
  intros H.
  assert (Hfinal : (units ← decode true rest; Ok (firstn n units))
                   = Ok (one_byte_units (substring 0 n rest))).
  { rewrite (decode_plain true rest H). cbn [mbind result_bind bind].
    now rewrite firstn_one_byte_units. }
  induction fuel as [|fuel IH]; intros fed; cbn [read_chunks];
    rewrite (decode_plain false _ (plain_ascii_substring rest 0 fed H));
    cbn [mbind result_bind bind]; rewrite length_one_byte_units, substring_length;
    destruct (Nat.leb_spec n (Nat.min fed (String.length rest - 0))) as [Hle|Hgt].
  - rewrite firstn_one_byte_units, substring_substring.
    do 2 f_equal. f_equal. lia.
  - exact Hfinal.
  - rewrite firstn_one_byte_units, substring_substring.
    do 2 f_equal. f_equal. lia.
  - destruct (fed <? String.length rest)%nat; [apply IH | exact Hfinal].
Qed.

(** On plain ASCII [read] returns the bytes from the position on, as many as
    asked for if there are as many, and moves the position behind them. *)
Lemma read_plain (f : TextIO) (size : option Z) :
  plain_ascii (buffer f) = true ->
  let start := Z.to_nat (position f) in
  let avail := (String.length (buffer f) - start)%nat in
  let n := match size with
           | Some n => if Z.ltb n 0 then avail else Nat.min (Z.to_nat n) avail
           | None => avail
           end in
  read f size
    = Ok (substring start n (buffer f),
          mkTextIO (buffer f) (position f + Z.of_nat n)).
Proof.
  intros H start avail n. unfold read. fold start. fold avail.
  set (rest := substring start avail (buffer f)).
  assert (Hrest : plain_ascii rest = true) by now apply plain_ascii_substring.
  assert (Hlen : String.length rest = avail).
  { unfold rest. rewrite substring_length. unfold avail. lia. }
  assert (Hall : decode true rest = Ok (one_byte_units (substring start avail (buffer f))))
    by now apply decode_plain.
  assert (Hunits :
    match size with
    | Some n0 =>
      if Z.ltb n0 0 then decode true rest
      else read_chunks (String.length rest) 0 (Z.to_nat n0) rest
    | None => decode true rest
    end = Ok (one_byte_units (substring start n (buffer f)))).
  { unfold n. destruct size as [n0|]; [|exact Hall].
    destruct (Z.ltb n0 0); [exact Hall|].
    rewrite (read_chunks_plain rest (Z.to_nat n0) Hrest).
    unfold rest. now rewrite substring_substring. }
  rewrite Hunits. cbn [mbind result_bind bind].
  rewrite text_of_one_byte_units, width_of_one_byte_units, substring_length.
  do 3 f_equal. unfold n, avail.
  destruct size as [n0|]; [destruct (Z.ltb n0 0)|]; lia.
Qed.

(** Decoding raises nothing but [UnicodeDecodeError]. *)
Lemma utf8_decode_Raise (final : bool) (s : string) :
  forall (skip : nat) (e : exn),
    utf8_decode final skip s = Raise e -> e = UnicodeDecodeError.
Proof.
  induction s as [|c s IH]; intros skip e H; [discriminate H|].
  cbn [utf8_decode] in H. destruct skip as [|skip]; [|now apply (IH skip)].
  destruct (utf8_following c) as [ranges|]; [|congruence].
  destruct (utf8_follow ranges s); [| |congruence].
  - destruct (utf8_decode final (length ranges) s) as [units|e'] eqn:Hrest;
      [discriminate H|].
    cbn [mbind result_bind bind] in H. injection H as <-.
    now apply (IH (length ranges)).
  - destruct final; [congruence | discriminate H].
Qed.

Lemma decode_Raise (final : bool) (s : string) (e : exn) :
  decode final s = Raise e -> e = UnicodeDecodeError.
Proof.
  unfold decode. intros H.
  destruct (utf8_decode final 0 s) as [units|e'] eqn:Hd; [discriminate H|].
  cbn [mbind result_bind bind] in H. injection H as <-.
  now apply (utf8_decode_Raise final s 0%nat).
Qed.

(** ** provider_base.py: the log summaries *)

(** A text of at most 2048 bytes is read whole, as [f.read()] reads it. *)
Lemma _read_summary_body_whole (content : string) :
  Z.of_nat (String.length content) <= SUMMARY_TRUNCATION_THRESHOLD ->
  _read_summary_body (mkTextIO content 0) =
    match decode true content with
    | Ok units => Ok (text_of units)
    | Raise _ => Raise UnicodeDecodeError
    end.
Proof.
  intros Hle. unfold _read_summary_body, seek, tell.
  cbn [Z.eqb Z.ltb Z.compare mbind result_bind bind buffer position].
  destruct (Z.gtb_spec (Z.of_nat (String.length content)) SUMMARY_TRUNCATION_THRESHOLD)
    as [Hgt|_]; [lia|].
  unfold read. cbn [buffer position]. change (Z.to_nat 0) with 0%nat.
  rewrite Nat.sub_0_r, substring_all.
  destruct (decode true content) as [units|e] eqn:Hd; cbn [mbind result_bind bind fst].
  - reflexivity.
  - now rewrite (decode_Raise true content e Hd).
Qed.

Lemma _read_summary_body_short (content : string) :
  plain_ascii content = true ->
  Z.of_nat (String.length content) <= SUMMARY_TRUNCATION_THRESHOLD ->
  _read_summary_body (mkTextIO content 0) = Ok content.
Proof.
  intros Hplain Hle. unfold _read_summary_body, seek, tell.
  cbn [Z.eqb Z.ltb Z.compare mbind result_bind bind buffer position].
  destruct (Z.gtb_spec (Z.of_nat (String.length content)) SUMMARY_TRUNCATION_THRESHOLD)
    as [Hgt|_]; [lia|].
  rewrite (read_plain (mkTextIO content 0) None Hplain).
  cbn [mbind result_bind bind buffer position fst].
  change (Z.to_nat 0) with 0%nat. rewrite Nat.sub_0_r, substring_all.
  reflexivity.
Qed.

Lemma _read_summary_body_long (content : string) :
  plain_ascii content = true ->
  SUMMARY_TRUNCATION_THRESHOLD < Z.of_nat (String.length content) ->
  _read_summary_body (mkTextIO content 0) =
    Ok (substring 0 1024 content ++ elision
          ++ substring (String.length content - 1024) 1024 content).
Proof.
  intros Hplain Hlt. unfold _read_summary_body, seek, tell.
  cbn [Z.eqb Z.ltb Z.compare mbind result_bind bind buffer position].
  destruct (Z.gtb_spec (Z.of_nat (String.length content)) SUMMARY_TRUNCATION_THRESHOLD)
    as [_|Hle]; [|lia].
  unfold SUMMARY_TRUNCATION_THRESHOLD in *.
  change (Z.quot 2048 2) with 1024.
  rewrite (read_plain (mkTextIO content 0) (Some 1024) Hplain).
  cbn [mbind result_bind bind buffer position].
  destruct (Z.ltb_spec (Z.of_nat (String.length content) - 1024) 0) as [Hneg|_];
    [lia|].
  cbn [mbind result_bind bind].
  rewrite (read_plain (mkTextIO content (Z.of_nat (String.length content) - 1024))
             (Some 1024) Hplain).
  cbn [mbind result_bind bind buffer position].
  change (Z.ltb 1024 0) with false. cbv iota.
  change (Z.to_nat 0) with 0%nat. rewrite Nat.sub_0_r.
  replace (Z.to_nat (Z.of_nat (String.length content) - 1024))
    with (String.length content - 1024)%nat by lia.
  rewrite !Nat.min_l by lia.
  reflexivity.
Qed.

Lemma _read_summary_Ok (fs : filesystem) (path content : string) :
  path <> "" -> fs path = Ok content ->
  _read_summary fs path =
    match _read_summary_body (mkTextIO content 0) with
    | Ok s => Ok (Some s)
    | Raise FileNotFoundError => Ok None
    | Raise e => Raise e
    end.
Proof.
  intros Hp Hfs. unfold _read_summary, open.
  destruct path; [congruence|]. rewrite Hfs. reflexivity.
Qed.

Lemma truthy_Some (path : string) : path <> "" -> truthy (Some path) = true.
Proof. destruct path; [congruence | reflexivity]. Qed.

(** C7, as the claim has it, fails.  The size that is compared with the
    threshold and the offset of the tail are counted in bytes, but [read] is
    asked for 1024 characters and returns text.  Of a log of 4000 bytes that
    holds 2000 two-byte letters the summary begins with 1024 letters, which
    are the first 2048 bytes and not the first 1024; where the offset of the
    tail falls inside a letter the summary is not returned at all; and a log
    of 2048 bytes with a line that ends in carriage return and line feed is
    returned with a line feed alone. *)
Lemma stdout_summary_counts_characters :
  (String.length sample.accented = 4000%nat /\
   stdout_summary (sample.holding sample.accented) (sample.failed_job "job.stdout")
     = Ok (Some (sample.repeated 1024 sample.e_acute ++ elision
                   ++ sample.repeated 512 sample.e_acute)) /\
   String.length (sample.repeated 1024 sample.e_acute) = 2048%nat /\
   stdout_summary (sample.holding sample.accented) (sample.failed_job "job.stdout")
     <> Ok (Some (substring 0 1024 sample.accented ++ elision
                    ++ substring (4000 - 1024) 1024 sample.accented))) /\
  (String.length sample.shifted = 4000%nat /\
   stdout_summary (sample.holding sample.shifted) (sample.failed_job "job.stdout")
     = Raise UnicodeDecodeError) /\
  (String.length sample.with_crlf = 2048%nat /\
   stdout_summary (sample.holding sample.with_crlf) (sample.failed_job "job.stdout")
     = Ok (Some ("a" ++ line_feed ++ sample.repeated 2045 "x")) /\
   stdout_summary (sample.holding sample.with_crlf) (sample.failed_job "job.stdout")
     <> Ok (Some sample.with_crlf)).
Proof.
  split; [|split].
  - split; [vm_compute; reflexivity|]. split; [vm_compute; reflexivity|].
    split; [vm_compute; reflexivity|].
    intros H. apply (f_equal (fun r => match r with
                                       | Ok (Some t) => String.length t
                                       | _ => O
                                       end)) in H.
    vm_compute in H. discriminate H.
  - split; vm_compute; reflexivity.
  - split; [vm_compute; reflexivity|]. split; [vm_compute; reflexivity|].
    intros H. apply (f_equal (fun r => match r with
                                       | Ok (Some t) => String.length t
                                       | _ => O
                                       end)) in H.
    vm_compute in H. discriminate H.
Qed.

(** C7, amended. [stdout_summary] on a file of exactly 2048 bytes returns
    the full text of the file as a text file gives it: the bytes decoded, with
    every line end read as a line feed, which for plain ASCII without carriage
    returns is the content unchanged; it raises [UnicodeDecodeError] if the
    bytes cannot be decoded.  On a file of 4000 bytes of plain ASCII without
    carriage returns, where a byte is a character, it returns the first 1024
    bytes, the elision marker and the last 1024 bytes, which is shorter than
    the content. *)
Theorem stdout_summary_2048_4000 (self : JobStatus) (path : string) :
  stdout_path self = Some path -> path <> "" ->
  (forall (fs : filesystem) (content : string),
     fs path = Ok content -> String.length content = 2048%nat ->
     stdout_summary fs self =
       match decode true content with
       | Ok units => Ok (Some (text_of units))
       | Raise _ => Raise UnicodeDecodeError
       end /\
     (plain_ascii content = true -> stdout_summary fs self = Ok (Some content))) /\
  (forall (fs : filesystem) (content : string),
     fs path = Ok content -> plain_ascii content = true ->
     String.length content = 4000%nat ->
     exists head middle tail : string,
       stdout_summary fs self = Ok (Some (head ++ elision ++ tail)) /\
       content = head ++ middle ++ tail /\
       String.length head = 1024%nat /\ String.length tail = 1024%nat /\
       elision = String "010" (String "." (String "." (String "." (String "010" "")))) /\
       (String.length (head ++ elision ++ tail) < String.length content)%nat).
Proof.
  intros Hpath Hne. split.
  - intros fs content Hfs Hlen.
    unfold stdout_summary; rewrite Hpath, (truthy_Some _ Hne); cbn [from_option id].
    rewrite (_read_summary_Ok fs path content Hne Hfs).
    assert (Hshort : Z.of_nat (String.length content) <= SUMMARY_TRUNCATION_THRESHOLD)
      by (rewrite Hlen; unfold SUMMARY_TRUNCATION_THRESHOLD; lia).
    split.
    + rewrite (_read_summary_body_whole content Hshort).
      destruct (decode true content); reflexivity.
    + intros Hplain. now rewrite (_read_summary_body_short content Hplain Hshort).
  - intros fs content Hfs Hplain Hlen.
    unfold stdout_summary; rewrite Hpath, (truthy_Some _ Hne); cbn [from_option id].
    rewrite (_read_summary_Ok fs path content Hne Hfs).
    rewrite _read_summary_body_long
      by (try assumption; rewrite Hlen; unfold SUMMARY_TRUNCATION_THRESHOLD; lia).
    rewrite Hlen.
    exists (substring 0 1024 content), (substring 1024 1952 content),
           (substring (4000 - 1024) 1024 content).
    assert (Hh : String.length (substring 0 1024 content) = 1024%nat)
      by (rewrite substring_length, Hlen; lia).
    assert (Ht : String.length (substring (4000 - 1024) 1024 content) = 1024%nat)
      by (rewrite substring_length, Hlen; lia).
    split; [reflexivity|].
    split; [|repeat split; try assumption].
    + rewrite <- (substring_all content) at 1. rewrite Hlen.
      change 4000%nat with (1024 + (1952 + 1024))%nat.
      rewrite (substring_split content 0 1024) by (rewrite Hlen; lia).
      rewrite (substring_split content (0 + 1024) 1952) by (rewrite Hlen; lia).
      reflexivity.
    + rewrite !append_length, Hh, Ht. simpl. lia.
Qed.

Lemma stdout_summary_2048_4000_witness :
  stdout_summary (sample.holding (sample.filled 2048)) (sample.failed_job "job.stdout")
    = Ok (Some (sample.filled 2048)) /\
  stdout_summary (sample.holding sample.with_crlf) (sample.failed_job "job.stdout")
    = Ok (Some ("a" ++ line_feed ++ sample.repeated 2045 "x")) /\
  exists head middle tail : string,
    stdout_summary (sample.holding (sample.filled 4000)) (sample.failed_job "job.stdout")
      = Ok (Some (head ++ elision ++ tail)) /\
    sample.filled 4000 = head ++ middle ++ tail /\
    String.length head = 1024%nat /\ String.length tail = 1024%nat /\
    elision = String "010" (String "." (String "." (String "." (String "010" "")))) /\
    (String.length (head ++ elision ++ tail) < String.length (sample.filled 4000))%nat.
Proof.
  destruct (stdout_summary_2048_4000 (sample.failed_job "job.stdout") "job.stdout"
              eq_refl ltac:(discriminate)) as [H2048 H4000].
  split; [|split].
  - apply (H2048 (sample.holding (sample.filled 2048)) (sample.filled 2048));
      [reflexivity | vm_compute; reflexivity | vm_compute; reflexivity].
  - destruct (H2048 (sample.holding sample.with_crlf) sample.with_crlf)
      as [Htext _]; [reflexivity | vm_compute; reflexivity |].
    rewrite Htext. vm_compute. reflexivity.
  - apply H4000; [reflexivity | vm_compute; reflexivity | vm_compute; reflexivity].
Defined.

(** ** provider_base.py: failures while reading a log *)

Lemma _read_file_Raise (fs : filesystem) (path : string) (e : exn) :
  fs path = Raise e -> _read_file fs path = Ok None.
Proof. intros Hfs. unfold _read_file, open. rewrite Hfs. reflexivity. Qed.

Lemma _read_summary_Raise (fs : filesystem) (path : string) (e : exn) :
  path <> "" -> fs path = Raise e ->
  _read_summary fs path =
    match e with FileNotFoundError => Ok None | _ => Raise e end.
Proof.
  intros Hne Hfs. unfold _read_summary, open.
  destruct path; [congruence|]. rewrite Hfs. destruct e; reflexivity.
Qed.

(** C2, as the claim has it, fails: when opening the log is refused
    ([PermissionError]), [stdout_summary] and [stderr_summary] raise that
    error instead of returning an absent value. *)
Lemma summary_raises_PermissionError :
  stdout_summary (sample.failing PermissionError) (sample.failed_job "job.stdout")
    = Raise PermissionError /\
  stderr_summary (sample.failing PermissionError) (sample.failed_job "job.stdout")
    = Raise PermissionError /\
  stdout_summary (sample.failing PermissionError) (sample.failed_job "job.stdout")
    <> Ok None.
Proof. split; [reflexivity | split; [reflexivity | discriminate]]. Qed.

Lemma _read_file_body (fs : filesystem) (path content : string) :
  fs path = Ok content ->
  _read_file fs path =
    match read (mkTextIO content 0) None with
    | Ok r => Ok (Some (fst r))
    | Raise _ => Ok None
    end.
Proof.
  intros Hfs. unfold _read_file, open. rewrite Hfs.
  cbn [mbind result_bind bind].
  destruct (read (mkTextIO content 0) None); reflexivity.
Qed.

(** C2, amended. When opening or reading a log fails, [stdout] and [stderr]
    return an absent value whatever the failure is, and never raise;
    [stdout_summary] and [stderr_summary] return an absent value when the
    file is missing ([FileNotFoundError]) and raise every other failure to
    the caller.  The failure is that of [open], or, for an opened file, that
    of the reads and seeks of the accessor. *)
Theorem log_read_failure (fs : filesystem) (self : JobStatus) (path : string)
    (e : exn) :
  path <> "" ->
  (fs path = Raise e ->
   (stdout_path self = Some path -> stdout fs self = Ok None) /\
   (stderr_path self = Some path -> stderr fs self = Ok None) /\
   (stdout_path self = Some path ->
      stdout_summary fs self =
        match e with FileNotFoundError => Ok None | _ => Raise e end) /\
   (stderr_path self = Some path ->
      stderr_summary fs self =
        match e with FileNotFoundError => Ok None | _ => Raise e end)) /\
  (forall content : string,
     fs path = Ok content ->
     (read (mkTextIO content 0) None = Raise e ->
      (stdout_path self = Some path -> stdout fs self = Ok None) /\
      (stderr_path self = Some path -> stderr fs self = Ok None)) /\
     (_read_summary_body (mkTextIO content 0) = Raise e ->
      (stdout_path self = Some path ->
         stdout_summary fs self =
           match e with FileNotFoundError => Ok None | _ => Raise e end) /\
      (stderr_path self = Some path ->
         stderr_summary fs self =
           match e with FileNotFoundError => Ok None | _ => Raise e end))).
Proof.
  intros Hne.
  unfold stdout, stderr, stdout_summary, stderr_summary.
  split.
  - intros Hfs.
    repeat split; intros Hpath; rewrite Hpath, (truthy_Some _ Hne);
      cbn [from_option id];
      eauto using _read_file_Raise, _read_summary_Raise.
  - intros content Hfs. split; intros Hfail; split; intros Hpath;
      rewrite Hpath, (truthy_Some _ Hne); cbn [from_option id].
    + rewrite (_read_file_body fs path content Hfs). now rewrite Hfail.
    + rewrite (_read_file_body fs path content Hfs). now rewrite Hfail.
    + rewrite (_read_summary_Ok fs path content Hne Hfs). rewrite Hfail.
      destruct e; reflexivity.
    + rewrite (_read_summary_Ok fs path content Hne Hfs). rewrite Hfail.
      destruct e; reflexivity.
Qed.

Lemma log_read_failure_witness :
  (stdout (sample.failing FileNotFoundError) (sample.failed_job "job.stdout") = Ok None /\
   stderr (sample.failing FileNotFoundError) (sample.failed_job "job.stdout") = Ok None /\
   stdout_summary (sample.failing FileNotFoundError) (sample.failed_job "job.stdout")
     = Ok None /\
   stderr_summary (sample.failing FileNotFoundError) (sample.failed_job "job.stdout")
     = Ok None) /\
  (stdout (sample.failing PermissionError) (sample.failed_job "job.stdout") = Ok None /\
   stderr (sample.failing PermissionError) (sample.failed_job "job.stdout") = Ok None /\
   stdout_summary (sample.failing PermissionError) (sample.failed_job "job.stdout")
     = Raise PermissionError /\
   stderr_summary (sample.failing PermissionError) (sample.failed_job "job.stdout")
     = Raise PermissionError) /\
  (stdout (sample.holding sample.undecodable) (sample.failed_job "job.stdout") = Ok None /\
   stderr (sample.holding sample.undecodable) (sample.failed_job "job.stdout") = Ok None /\
   stdout_summary (sample.holding sample.undecodable) (sample.failed_job "job.stdout")
     = Raise UnicodeDecodeError /\
   stderr_summary (sample.holding sample.undecodable) (sample.failed_job "job.stdout")
     = Raise UnicodeDecodeError).
Proof.
  assert (Hne : "job.stdout" <> "") by discriminate.
  destruct (proj1 (log_read_failure (sample.failing FileNotFoundError)
                     (sample.failed_job "job.stdout") "job.stdout" FileNotFoundError
                     Hne) eq_refl) as (H1 & H2 & H3 & H4).
  destruct (proj1 (log_read_failure (sample.failing PermissionError)
                     (sample.failed_job "job.stdout") "job.stdout" PermissionError
                     Hne) eq_refl) as (H5 & H6 & H7 & H8).
  destruct (proj2 (log_read_failure (sample.holding sample.undecodable)
                     (sample.failed_job "job.stdout") "job.stdout" UnicodeDecodeError
                     Hne) sample.undecodable eq_refl) as (Hread & Hsummary).
  destruct (Hread ltac:(vm_compute; reflexivity)) as (H9 & H10).
  destruct (Hsummary ltac:(vm_compute; reflexivity)) as (H11 & H12).
  exact (conj (conj (H1 eq_refl) (conj (H2 eq_refl) (conj (H3 eq_refl) (H4 eq_refl))))
           (conj (conj (H5 eq_refl) (conj (H6 eq_refl) (conj (H7 eq_refl) (H8 eq_refl))))
              (conj (H9 eq_refl) (conj (H10 eq_refl) (conj (H11 eq_refl) (H12 eq_refl)))))).
Defined.

(** ** memoization.py: the Memoizer *)

Section MemoizerFacts.

Variable serialize_object : value -> result (list bytes).
Variable md5_hexdigest : bytes -> string.

Lemma disabled_orb (self : Memoizer) (task : Task) :
  self_memoize self = false \/ memoize task = false ->
  negb (self_memoize self) || negb (memoize task) = true.
Proof. intros [H|H]; rewrite H; [reflexivity | apply orb_true_r]. Qed.

Lemma check_memo_enabled (self : Memoizer) (task_id : Z) (task : Task) (h : string) :
  self_memoize self = true -> memoize task = true ->
  make_hash serialize_object md5_hexdigest task = Ok h ->
  check_memo serialize_object md5_hexdigest self task_id task =
    (self, set_hashsum task (Some h),
     Ok match memo_lookup_table self !! Some h with
        | Some cached => (true, cached)
        | None => (false, Atom PyNone)
        end).
Proof.
  intros Hself Htask Hhash. unfold check_memo.
  rewrite Hself, Htask, Hhash. simpl.
  destruct (memo_lookup_table self !! Some h); reflexivity.
Qed.

Lemma update_memo_enabled (self : Memoizer) (task_id : Z) (task : Task) (r : value) :
  self_memoize self = true -> memoize task = true ->
  update_memo self task_id task r =
    mkMemoizer true (<[hashsum task := r]> (memo_lookup_table self)).
Proof.
  intros Hself Htask. unfold update_memo. rewrite Hself, Htask. simpl.
  destruct (bool_decide _); reflexivity.
Qed.

End MemoizerFacts.

(** C1. With memoization enabled in the Memoizer and in the task: after
    [update_memo] has stored [r] under the task's hash [h], [check_memo] on
    any enabled task whose computed hash is [h] returns [(True, r)], also when
    [r] is [None]; a task whose hash has no entry gets [(False, None)]. *)
Theorem check_memo_after_update_memo
    (serialize_object : value -> result (list bytes))
    (md5_hexdigest : bytes -> string)
    (self : Memoizer) (task_id task_id' : Z) (task task' : Task) (h : string)
    (r : value) :
  self_memoize self = true -> memoize task = true -> hashsum task = Some h ->
  memoize task' = true ->
  make_hash serialize_object md5_hexdigest task' = Ok h ->
  let self' := update_memo self task_id task r in
  check_memo serialize_object md5_hexdigest self' task_id' task'
    = (self', set_hashsum task' (Some h), Ok (true, r)) /\
  (r = Atom PyNone ->
   check_memo serialize_object md5_hexdigest self' task_id' task'
     = (self', set_hashsum task' (Some h), Ok (true, Atom PyNone))) /\
  (forall (task'' : Task) (h'' : string),
     memoize task'' = true ->
     make_hash serialize_object md5_hexdigest task'' = Ok h'' ->
     memo_lookup_table self' !! Some h'' = None ->
     check_memo serialize_object md5_hexdigest self' task_id' task''
       = (self', set_hashsum task'' (Some h''), Ok (false, Atom PyNone))).
Proof.
  intros Hself Htask Hsum Htask' Hhash self'.
  assert (Hself' : self' = mkMemoizer true (<[Some h := r]> (memo_lookup_table self))).
  { unfold self'. rewrite update_memo_enabled by assumption. now rewrite Hsum. }
  assert (Hhit : check_memo serialize_object md5_hexdigest self' task_id' task'
                 = (self', set_hashsum task' (Some h), Ok (true, r))).
  { rewrite (check_memo_enabled _ _ self' task_id' task' h); try assumption.
    - rewrite Hself'. simpl. now rewrite lookup_insert_eq.
    - now rewrite Hself'. }
  split; [exact Hhit|]. split.
  - intros Hr. rewrite Hhit, Hr. reflexivity.
  - intros task'' h'' Htask'' Hhash'' Hmiss.
    rewrite (check_memo_enabled _ _ self' task_id' task'' h''); try assumption.
    + now rewrite Hmiss.
    + now rewrite Hself'.
Qed.

(** C3. If memoization is off in the Memoizer or in the task, [check_memo]
    sets the task's hashsum to [None] and returns [(False, None)]; no hash is
    computed: the outcome is the same for every serializer and digest, and it
    is reached also for a task that [make_hash] cannot hash. *)
Theorem check_memo_disabled
    (serialize_object : value -> result (list bytes))
    (md5_hexdigest : bytes -> string)
    (self : Memoizer) (task_id : Z) (task : Task) :
  self_memoize self = false \/ memoize task = false ->
  check_memo serialize_object md5_hexdigest self task_id task
    = (self, set_hashsum task None, Ok (false, Atom PyNone)) /\
  hashsum (set_hashsum task None) = None /\
  (forall (serialize_object' : value -> result (list bytes))
          (md5_hexdigest' : bytes -> string),
     check_memo serialize_object' md5_hexdigest' self task_id task
       = check_memo serialize_object md5_hexdigest self task_id task).
Proof.
  intros Hoff. apply disabled_orb in Hoff. unfold check_memo.
  rewrite Hoff. split; [reflexivity|]. split; reflexivity.
Qed.

(** C4. If memoization is off in the Memoizer or in the task, [update_memo]
    leaves the Memoizer, and so its lookup table, as it was. *)
Theorem update_memo_disabled (self : Memoizer) (task_id : Z) (task : Task)
    (r : value) :
  self_memoize self = false \/ memoize task = false ->
  update_memo self task_id task r = self /\
  memo_lookup_table (update_memo self task_id task r) = memo_lookup_table self.
Proof.
  intros Hoff. apply disabled_orb in Hoff. unfold update_memo.
  rewrite Hoff. split; reflexivity.
Qed.

(** C9. [hash_lookup] raises [KeyError] for a hash that has no entry and
    returns the stored value for one that has, in both cases leaving the table
    as it was; [check_memo], for an enabled task whose hash has no entry,
    returns [(False, None)] and does not raise. *)
Theorem hash_lookup_KeyError (self : Memoizer) (h : string) :
  (memo_lookup_table self !! Some h = None ->
   hash_lookup self (Some h) = (self, Raise KeyError)) /\
  (forall r : value,
     memo_lookup_table self !! Some h = Some r ->
     hash_lookup self (Some h) = (self, Ok r)) /\
  (forall (serialize_object : value -> result (list bytes))
          (md5_hexdigest : bytes -> string) (task_id : Z) (task : Task),
     self_memoize self = true -> memoize task = true ->
     make_hash serialize_object md5_hexdigest task = Ok h ->
     memo_lookup_table self !! Some h = None ->
     check_memo serialize_object md5_hexdigest self task_id task
       = (self, set_hashsum task (Some h), Ok (false, Atom PyNone))).
Proof.
  split; [|split].
  - intros Hnone. unfold hash_lookup. now rewrite Hnone.
  - intros r Hsome. unfold hash_lookup. now rewrite Hsome.
  - intros ser md5 task_id task Hself Htask Hhash Hnone.
    rewrite (check_memo_enabled ser md5 self task_id task h) by assumption.
    now rewrite Hnone.
Qed.

(** C10. A Memoizer constructed with [memoize=False] has an empty lookup
    table whatever checkpoint it was given, so [hash_lookup] raises
    [KeyError] for every key, the keys of the checkpoint included. *)
Theorem init_disabled_discards_checkpoint
    (checkpoint : gmap (option string) value) :
  memo_lookup_table (__init__ false checkpoint) = ∅ /\
  self_memoize (__init__ false checkpoint) = false /\
  (forall k : option string,
     hash_lookup (__init__ false checkpoint) k
       = (__init__ false checkpoint, Raise KeyError)) /\
  (forall (h : string) (r : value),
     checkpoint !! Some h = Some r ->
     hash_lookup (__init__ false checkpoint) (Some h)
       = (__init__ false checkpoint, Raise KeyError) /\
     hash_lookup (__init__ true checkpoint) (Some h)
       = (__init__ true checkpoint, Ok r)).
Proof.
  split; [reflexivity|]. split; [reflexivity|]. split.
  - intros k. unfold hash_lookup, __init__. simpl. now rewrite lookup_empty.
  - intros h r Hin. unfold hash_lookup, __init__. simpl.
    rewrite lookup_empty, Hin. split; reflexivity.
Qed.

Lemma check_memo_after_update_memo_witness :
  check_memo sample.serialize_object sample.hexdigest
    (update_memo (__init__ true ∅) 0
       (set_hashsum sample.task_f (Some sample.task_f_hash)) (Atom PyNone))
    1 sample.task_f
  = (update_memo (__init__ true ∅) 0
       (set_hashsum sample.task_f (Some sample.task_f_hash)) (Atom PyNone),
     set_hashsum sample.task_f (Some sample.task_f_hash),
     Ok (true, Atom PyNone)).
Proof.
  exact (proj1 (check_memo_after_update_memo
                  sample.serialize_object sample.hexdigest (__init__ true ∅) 0 1
                  (set_hashsum sample.task_f (Some sample.task_f_hash))
                  sample.task_f sample.task_f_hash (Atom PyNone)
                  eq_refl eq_refl eq_refl eq_refl
                  ltac:(vm_compute; reflexivity))).
Defined.

Lemma check_memo_disabled_witness :
  make_hash sample.serialize_object sample.hexdigest sample.task_g = Raise ValueError /\
  check_memo sample.serialize_object sample.hexdigest (__init__ false ∅) 7 sample.task_g
  = (__init__ false ∅, set_hashsum sample.task_g None, Ok (false, Atom PyNone)).
Proof.
  split; [vm_compute; reflexivity|].
  exact (proj1 (check_memo_disabled sample.serialize_object sample.hexdigest
                  (__init__ false ∅) 7 sample.task_g (or_introl eq_refl))).
Defined.

Lemma update_memo_disabled_witness :
  update_memo (__init__ false ∅) 7 sample.task_f (Atom (PyInt 42)) = __init__ false ∅.
Proof.
  exact (proj1 (update_memo_disabled (__init__ false ∅) 7 sample.task_f
                  (Atom (PyInt 42)) (or_introl eq_refl))).
Defined.

Lemma hash_lookup_KeyError_witness :
  hash_lookup (__init__ true ∅) (Some sample.task_f_hash)
    = (__init__ true ∅, Raise KeyError) /\
  hash_lookup (__init__ true {[Some sample.task_f_hash := Atom (PyInt 42)]})
      (Some sample.task_f_hash)
    = (__init__ true {[Some sample.task_f_hash := Atom (PyInt 42)]},
       Ok (Atom (PyInt 42))) /\
  check_memo sample.serialize_object sample.hexdigest (__init__ true ∅) 1 sample.task_f
    = (__init__ true ∅, set_hashsum sample.task_f (Some sample.task_f_hash),
       Ok (false, Atom PyNone)).
Proof.
  split; [|split].
  - apply (proj1 (hash_lookup_KeyError (__init__ true ∅) sample.task_f_hash)).
    reflexivity.
  - apply (proj1 (proj2 (hash_lookup_KeyError
                           (__init__ true {[Some sample.task_f_hash := Atom (PyInt 42)]})
                           sample.task_f_hash))).
    vm_compute; reflexivity.
  - apply (proj2 (proj2 (hash_lookup_KeyError (__init__ true ∅) sample.task_f_hash)));
      [reflexivity | reflexivity | vm_compute; reflexivity | reflexivity].
Defined.

Lemma init_disabled_discards_checkpoint_witness :
  hash_lookup (__init__ false {[Some sample.task_f_hash := Atom (PyInt 42)]})
      (Some sample.task_f_hash)
    = (__init__ false {[Some sample.task_f_hash := Atom (PyInt 42)]}, Raise KeyError) /\
  hash_lookup (__init__ true {[Some sample.task_f_hash := Atom (PyInt 42)]})
      (Some sample.task_f_hash)
    = (__init__ true {[Some sample.task_f_hash := Atom (PyInt 42)]},
       Ok (Atom (PyInt 42))).
Proof.
  apply (proj2 (proj2 (proj2 (init_disabled_discards_checkpoint
                                {[Some sample.task_f_hash := Atom (PyInt 42)]})))).
  vm_compute; reflexivity.
Defined.

(** ** memoization.py: values without an encoding rule *)

(** The classes for which a rule is registered with [id_for_memo.register]. *)
Lemma registered_classes (cls : pytype) :
  registered cls <> None <->
  In cls [t_object; t_str; t_int; t_float; t_FunctionType; t_NoneType; t_list; t_dict].
Proof.
  split.
  - destruct cls; simpl; intros H; try tauto; exfalso; apply H; reflexivity.
  - simpl. intros H.
    repeat (destruct H as [H|H]; [subst cls; discriminate|]). destruct H.
Qed.

(** C8. A value none of whose classes (its type and the bases of its type,
    [object] aside) is [str], [int], [float], [NoneType], a plain function,
    [list] or [dict] is not encoded: [id_for_memo] raises the [ValueError]
    of the generic function, whatever the serializer is, and returns no byte
    sequence. *)
Theorem id_for_memo_unregistered
    (serialize_object : value -> result (list bytes)) (obj : value) :
  (forall cls : pytype,
     In cls (mro (type obj)) ->
     ~ In cls [t_str; t_int; t_float; t_FunctionType; t_NoneType; t_list; t_dict]) ->
  dispatch (type obj) = impl_id_for_memo /\
  id_for_memo serialize_object obj = Raise ValueError /\
  (forall b : bytes, id_for_memo serialize_object obj <> Ok b).
Proof.
  intros Hnone.
  assert (Hd : dispatch (type obj) = impl_id_for_memo).
  { destruct obj as [[]| |]; try reflexivity; exfalso;
      first [ apply (Hnone t_str); solve [simpl; auto 10]
            | apply (Hnone t_int); solve [simpl; auto 10]
            | apply (Hnone t_float); solve [simpl; auto 10]
            | apply (Hnone t_FunctionType); solve [simpl; auto 10]
            | apply (Hnone t_NoneType); solve [simpl; auto 10]
            | apply (Hnone t_list); solve [simpl; auto 10]
            | apply (Hnone t_dict); solve [simpl; auto 10] ]. }
  assert (Hr : id_for_memo serialize_object obj = Raise ValueError).
  { unfold id_for_memo. simpl. unfold id_for_memo_call. now rewrite Hd. }
  split; [exact Hd|]. split; [exact Hr|].
  intros b. rewrite Hr. discriminate.
Qed.

Lemma id_for_memo_unregistered_witness :
  id_for_memo sample.serialize_object (Atom (PyObject "Widget")) = Raise ValueError /\
  id_for_memo sample.serialize_object (Atom (PyBytes [Byte.x00])) = Raise ValueError.
Proof.
  split.
  - apply (id_for_memo_unregistered sample.serialize_object (Atom (PyObject "Widget"))).
    intros cls [<-|[<-|[]]]; simpl; intuition discriminate.
  - apply (id_for_memo_unregistered sample.serialize_object (Atom (PyBytes [Byte.x00]))).
    intros cls [<-|[<-|[]]]; simpl; intuition discriminate.
Defined.

(** ** memoization.py: sorted *)

Section SortedFacts.

Context {A : Type} (key : A -> atom).

Local Open Scope list_scope.

Lemma insert_Permutation (x : A) (l r : list A) :
  insert key x l = Ok r -> Permutation (x :: l) r.
Proof.
  revert r. induction l as [|y l IH]; simpl; intros r H.
  - injection H as <-. reflexivity.
  - destruct (py_lt (key y) (key x)) as [[|]|e]; simpl in H; try discriminate.
    + destruct (insert key x l) as [r'|e] eqn:Hins; simpl in H; try discriminate.
      injection H as <-. rewrite perm_swap. apply perm_skip. now apply IH.
    + injection H as <-. reflexivity.
Qed.

Lemma sorted_Permutation (l s : list A) :
  sorted key l = Ok s -> Permutation l s.
Proof.
  revert s. induction l as [|x l IH]; simpl; intros s H.
  - injection H as <-. reflexivity.
  - destruct (sorted key l) as [s'|e]; simpl in H; try discriminate.
    rewrite (IH s' eq_refl). now apply insert_Permutation.
Qed.

(** Inserting into an ascending list puts the element after the elements
    strictly below it and before the elements it is strictly below. *)
Lemma insert_between (x : A) (s1 s2 : list A) :
  Forall (fun y => below (key y) (key x)) s1 ->
  Forall (fun y => below (key x) (key y)) s2 ->
  insert key x (s1 ++ s2) = Ok (s1 ++ x :: s2).
Proof.
  intros H1 H2. induction H1 as [|y s1 [Hyx _] _ IH]; simpl.
  - destruct H2 as [|y s2 [_ Hyx] _]; simpl; [reflexivity|].
    rewrite Hyx. reflexivity.
  - rewrite Hyx. simpl. rewrite IH. reflexivity.
Qed.

Lemma StronglySorted_middle (R : A -> A -> Prop) (s1 s2 : list A) (x : A) :
  StronglySorted R (s1 ++ x :: s2) ->
  StronglySorted R (s1 ++ s2) /\ Forall (fun y => R y x) s1 /\ Forall (R x) s2.
Proof.
  induction s1 as [|y s1 IH]; simpl; intros H.
  - apply StronglySorted_inv in H as [Hs Hx]. auto.
  - apply StronglySorted_inv in H as [Hs Hy].
    destruct (IH Hs) as (Hs' & H1 & H2).
    rewrite Forall_app in Hy. destruct Hy as [Hy1 Hy2].
    apply Forall_cons_1 in Hy2 as [Hyx Hy2].
    repeat split; auto.
    apply SSorted_cons; [assumption|]. rewrite Forall_app. auto.
Qed.

(** Whatever the order of the input, [sorted] returns the ascending
    arrangement of its elements when there is one. *)
Lemma sorted_ascending (l s : list A) :
  StronglySorted (fun x y => below (key x) (key y)) s ->
  Permutation l s -> sorted key l = Ok s.
Proof.
  revert s. induction l as [|x l IH]; intros s Hs Hperm.
  - apply Permutation_nil in Hperm. now subst s.
  - assert (Hin : In x s) by (eapply Permutation_in; [exact Hperm | now left]).
    apply in_split in Hin as (s1 & s2 & ->).
    apply Permutation_cons_app_inv in Hperm.
    apply StronglySorted_middle in Hs as (Hs & H1 & H2).
    simpl. rewrite (IH _ Hs Hperm). simpl. now apply insert_between.
Qed.

End SortedFacts.

(** ** memoization.py: the recursion of the encoder *)

Section EncoderFacts.

Variable serialize_object : value -> result (list bytes).

Local Open Scope list_scope.

Lemma normalize_list_ext (f g : value -> result bytes) (l : list value) :
  (forall e, In e l -> f e = g e) -> normalize_list f l = normalize_list g l.
Proof.
  induction l as [|e l IH]; intros H; simpl; [reflexivity|].
  rewrite (H e) by now left. rewrite IH; [reflexivity|].
  intros e' He'. apply H. now right.
Qed.

Lemma normalize_items_ext (f g : value -> result bytes) (l : list (atom * value)) :
  (forall k, In k l -> f (Atom (fst k)) = g (Atom (fst k)) /\ f (snd k) = g (snd k)) ->
  normalize_items f l = normalize_items g l.
Proof.
  induction l as [|k l IH]; intros H; simpl; [reflexivity|].
  destruct (H k) as [-> ->]; [now left|]. rewrite IH; [reflexivity|].
  intros k' Hk'. apply H. now right.
Qed.

Lemma depth_list_lt (l : list value) (e : value) :
  In e l -> (depth e < depth (PyList l))%nat.
Proof.
  intros Hin. simpl.
  assert (H := proj1 (list_max_le (map depth l) (list_max (map depth l))) (Nat.le_refl _)).
  rewrite List.Forall_forall in H.
  specialize (H (depth e) (in_map depth l e Hin)). lia.
Qed.

Lemma depth_dict_lt (d : list (atom * value)) (k : atom * value) :
  In k d -> (depth (snd k) < depth (PyDict d))%nat.
Proof.
  intros Hin. simpl.
  assert (H := proj1 (list_max_le (map (fun kv => depth (snd kv)) d)
                        (list_max (map (fun kv => depth (snd kv)) d)))
                 (Nat.le_refl _)).
  rewrite List.Forall_forall in H.
  specialize (H (depth (snd k)) (in_map (fun kv => depth (snd kv)) d k Hin)). lia.
Qed.

(** The result of the bounded recursion is the same for every bound above
    the depth of the value. *)
Lemma id_for_memo_within_stable (n : nat) :
  forall (m : nat) (obj : value),
    (depth obj < n)%nat -> (depth obj < m)%nat ->
    id_for_memo_within serialize_object n obj
      = id_for_memo_within serialize_object m obj.
Proof.
  induction n as [|n IH]; intros m obj Hn Hm; [lia|].
  destruct m as [|m]; [lia|].
  simpl. unfold id_for_memo_call.
  destruct obj as [a|l|d]; [reflexivity| |].
  - simpl. unfold id_for_memo_list. f_equal.
    apply normalize_list_ext. intros e He.
    apply depth_list_lt in He. apply IH; lia.
  - simpl. unfold id_for_memo_dict.
    destruct (sorted fst d) as [keys|e] eqn:Hkeys; [|reflexivity].
    simpl. f_equal.
    apply normalize_items_ext. intros k Hk.
    assert (Hin : In k d).
    { eapply Permutation_in; [|exact Hk].
      symmetry. eapply sorted_Permutation. exact Hkeys. }
    apply depth_dict_lt in Hin. simpl in Hn, Hm.
    split; apply IH; simpl in *; lia.
Qed.

Lemma id_for_memo_within_enough (n : nat) (obj : value) :
  (depth obj < n)%nat ->
  id_for_memo_within serialize_object n obj = id_for_memo serialize_object obj.
Proof. intros H. unfold id_for_memo. apply id_for_memo_within_stable; lia. Qed.

(** [id_for_memo] satisfies the equations of the four functions registered
    in the source. *)
Lemma id_for_memo_eq (obj : value) :
  id_for_memo serialize_object obj
    = id_for_memo_call serialize_object (id_for_memo serialize_object) obj.
Proof.
  unfold id_for_memo at 1.
  destruct obj as [a|l|d]; [reflexivity| |].
  - change (id_for_memo_list serialize_object
              (id_for_memo_within serialize_object (depth (PyList l))) l
            = id_for_memo_list serialize_object (id_for_memo serialize_object) l).
    unfold id_for_memo_list. f_equal.
    apply normalize_list_ext. intros e He.
    apply id_for_memo_within_enough. now apply depth_list_lt.
  - change (id_for_memo_dict serialize_object
              (id_for_memo_within serialize_object (depth (PyDict d))) d
            = id_for_memo_dict serialize_object (id_for_memo serialize_object) d).
    unfold id_for_memo_dict.
    destruct (sorted fst d) as [keys|e] eqn:Hkeys; [|reflexivity].
    cbn [mbind result_bind bind]. f_equal.
    apply normalize_items_ext. intros k Hk.
    assert (Hin : In k d).
    { eapply Permutation_in; [|exact Hk].
      symmetry. eapply sorted_Permutation. exact Hkeys. }
    apply depth_dict_lt in Hin.
    split; apply id_for_memo_within_enough; [simpl; lia | exact Hin].
Qed.

Lemma id_for_memo_PyList (l : list value) :
  id_for_memo serialize_object (PyList l)
    = id_for_memo_list serialize_object (id_for_memo serialize_object) l.
Proof. rewrite id_for_memo_eq. reflexivity. Qed.

Lemma id_for_memo_PyDict (d : list (atom * value)) :
  id_for_memo serialize_object (PyDict d)
    = id_for_memo_dict serialize_object (id_for_memo serialize_object) d.
Proof. rewrite id_for_memo_eq. reflexivity. Qed.

End EncoderFacts.

(** ** memoization.py: text keys are strictly ordered *)

Lemma string_compare_Lt_trans (a : string) :
  forall b c : string,
    String.compare a b = Lt -> String.compare b c = Lt -> String.compare a c = Lt.
Proof.
  induction a as [|x a IH]; intros [|y b] [|z c]; simpl; try discriminate; auto.
  unfold Ascii.compare.
  destruct (N.compare_spec (N_of_ascii x) (N_of_ascii y)) as [Hxy|Hxy|Hxy];
    try discriminate;
    destruct (N.compare_spec (N_of_ascii y) (N_of_ascii z)) as [Hyz|Hyz|Hyz];
    try discriminate; intros H1 H2.
  - rewrite Hxy, Hyz, N.compare_refl. eauto.
  - rewrite Hxy. now apply N.compare_lt_iff in Hyz as ->.
  - rewrite <- Hyz. now apply N.compare_lt_iff in Hxy as ->.
  - assert (Hxz : (N_of_ascii x < N_of_ascii z)%N) by lia.
    now apply N.compare_lt_iff in Hxz as ->.
Qed.

Lemma below_PyStr (a b : string) :
  below (PyStr a) (PyStr b) <-> String.compare a b = Lt.
Proof.
  unfold below, py_lt, String.ltb. rewrite (String.compare_antisym b a).
  destruct (String.compare a b); simpl; split; intros H;
    try reflexivity; try discriminate; try (destruct H; discriminate);
    split; reflexivity.
Qed.

Lemma below_PyStr_total (a b : string) :
  a <> b -> below (PyStr a) (PyStr b) \/ below (PyStr b) (PyStr a).
Proof.
  intros Hne. rewrite !below_PyStr, (String.compare_antisym b a).
  destruct (String.compare a b) eqn:Hc; simpl; auto.
  apply String.compare_eq_iff in Hc. contradiction.
Qed.

Lemma below_PyStr_trans (a b c : string) :
  below (PyStr a) (PyStr b) -> below (PyStr b) (PyStr c) -> below (PyStr a) (PyStr c).
Proof. rewrite !below_PyStr. apply string_compare_Lt_trans. Qed.

Lemma ascending_insert (x : atom * value) (s : list (atom * value)) :
  text_key x -> Forall text_key s -> ~ In (fst x) (map fst s) -> ascending s ->
  exists s' : list (atom * value), Permutation (x :: s) s' /\ ascending s'.
Proof.
  intros [tx Hx] Htext Hfresh Hs. unfold ascending in *.
  induction Hs as [|y s Hs IH Hy].
  - exists [x]. split; [reflexivity|]. repeat constructor.
  - apply Forall_cons_1 in Htext as [[ty Hty] Htext].
    assert (Hne : tx <> ty).
    { intros ->. apply Hfresh. left. congruence. }
    destruct (below_PyStr_total tx ty Hne) as [Hlt|Hlt].
    + exists (x :: y :: s). split; [reflexivity|].
      apply SSorted_cons; [now apply SSorted_cons|].
      apply List.Forall_cons; [now rewrite Hx, Hty|].
      rewrite List.Forall_forall in Hy, Htext |- *.
      intros z Hz. destruct (Htext z Hz) as [tz Htz].
      specialize (Hy z Hz). rewrite Hx, Htz. rewrite Hty, Htz in Hy.
      eapply below_PyStr_trans; eassumption.
    + destruct IH as (s' & Hperm & Hs'); [assumption| |].
      { intros Hin. apply Hfresh. now right. }
      exists (y :: s'). split.
      * rewrite perm_swap. now apply perm_skip.
      * apply SSorted_cons; [assumption|].
        rewrite List.Forall_forall in Hy |- *.
        intros z Hz. apply (Permutation_in _ (Permutation_sym Hperm)) in Hz.
        destruct Hz as [<-|Hz]; [now rewrite Hx, Hty | now apply Hy].
Qed.

(** The entries of a dict whose keys are distinct texts can be arranged in
    strictly ascending order of their keys. *)
Lemma text_keys_ascending (d : list (atom * value)) :
  Forall text_key d -> List.NoDup (map fst d) ->
  exists s : list (atom * value), Permutation d s /\ ascending s.
Proof.
  induction d as [|x d IH]; intros Htext Hnodup.
  - exists []. split; [reflexivity | constructor].
  - apply Forall_cons_1 in Htext as [Hx Htext].
    simpl in Hnodup. apply List.NoDup_cons_iff in Hnodup as [Hfresh Hnodup].
    destruct (IH Htext Hnodup) as (s & Hperm & Hs).
    destruct (ascending_insert x s) as (s' & Hperm' & Hs'); try assumption.
    + rewrite List.Forall_forall in Htext |- *.
      intros z Hz. apply Htext. now apply (Permutation_in _ (Permutation_sym Hperm)).
    + intros Hin. apply Hfresh.
      eapply Permutation_in; [|exact Hin].
      apply Permutation_map. now symmetry.
    + exists s'. split; [|assumption].
      rewrite <- Hperm'. now apply perm_skip.
Qed.

(** ** memoization.py: dicts and insertion order *)

(** With a serializer that tells values apart, the two insertion orders of
    [{nan: 1, 1.0: 2}] have different encodings. *)
Lemma id_for_memo_dict_NaN_key_injective
    (serialize_object : value -> result (list bytes)) :
  (forall (x y : value) (b : bytes),
     id_for_memo_serialize serialize_object x = Ok b ->
     id_for_memo_serialize serialize_object y = Ok b -> x = y) ->
  forall b1 b2 : bytes,
    id_for_memo serialize_object (PyDict sample.dict_nan_one) = Ok b1 ->
    id_for_memo serialize_object (PyDict sample.dict_one_nan) = Ok b2 ->
    b1 <> b2.
Proof.
  intros Hinj b1 b2 H1 H2 <-.
  rewrite id_for_memo_PyDict in H1, H2. unfold id_for_memo_dict in H1, H2.
  change (sorted fst sample.dict_nan_one) with (Ok sample.dict_nan_one) in H1.
  change (sorted fst sample.dict_one_nan) with (Ok sample.dict_one_nan) in H2.
  cbn [mbind result_bind bind sample.dict_nan_one sample.dict_one_nan
       normalize_items fst snd] in H1, H2.
  change (id_for_memo serialize_object (Atom (PyFloat ?x)))
    with (id_for_memo_serialize serialize_object (Atom (PyFloat x))) in *.
  change (id_for_memo serialize_object (Atom (PyInt ?n)))
    with (id_for_memo_serialize serialize_object (Atom (PyInt n))) in *.
  destruct (id_for_memo_serialize serialize_object (Atom (PyFloat S754_nan)))
    as [n|] eqn:Hn; [|discriminate H1].
  destruct (id_for_memo_serialize serialize_object (Atom (PyInt 1)))
    as [i1|] eqn:Hi1; [|discriminate H1].
  destruct (id_for_memo_serialize serialize_object (Atom (PyFloat sample.float_one)))
    as [o|] eqn:Ho; [|discriminate H1].
  destruct (id_for_memo_serialize serialize_object (Atom (PyInt 2)))
    as [i2|] eqn:Hi2; [|discriminate H1].
  cbn [mbind result_bind bind map] in H1, H2.
  assert (Hlists := Hinj _ _ _ H1 H2).
  injection Hlists as Hno _.
  subst o. discriminate (Hinj _ _ _ Hn Ho).
Qed.

(** C6, as the claim has it, fails: [<] does not order a NaN key, so [sorted]
    leaves the keys of [{nan: 1, 1.0: 2}] and of [{1.0: 2, nan: 1}] in their
    insertion order, and the two dicts, which hold the same entries, are
    encoded differently: by the sample serializer, and by every serializer
    that tells values apart. *)
Lemma id_for_memo_dict_NaN_key :
  Permutation sample.dict_nan_one sample.dict_one_nan /\
  sorted fst sample.dict_nan_one = Ok sample.dict_nan_one /\
  sorted fst sample.dict_one_nan = Ok sample.dict_one_nan /\
  id_for_memo sample.serialize_object (PyDict sample.dict_nan_one)
    <> id_for_memo sample.serialize_object (PyDict sample.dict_one_nan) /\
  (forall serialize_object : value -> result (list bytes),
     (forall (x y : value) (b : bytes),
        id_for_memo_serialize serialize_object x = Ok b ->
        id_for_memo_serialize serialize_object y = Ok b -> x = y) ->
     forall b1 b2 : bytes,
       id_for_memo serialize_object (PyDict sample.dict_nan_one) = Ok b1 ->
       id_for_memo serialize_object (PyDict sample.dict_one_nan) = Ok b2 ->
       b1 <> b2).
Proof.
  split; [apply perm_swap|]. split; [reflexivity|]. split; [reflexivity|].
  split; [vm_compute; discriminate|].
  exact id_for_memo_dict_NaN_key_injective.
Qed.

(** When the keys can be arranged in ascending order, [sorted] returns that
    arrangement, and the dict is encoded from it: for each key in that order
    the encoding of the key, then the encoding of its value. *)
Lemma id_for_memo_dict_sorted
    (serialize_object : value -> result (list bytes))
    (d s : list (atom * value)) :
  Permutation d s -> ascending s ->
  sorted fst d = Ok s /\
  id_for_memo serialize_object (PyDict d) =
    (normalized_list ← normalize_items (id_for_memo serialize_object) s;
     serialize_object (PyList (map (fun b => Atom (PyBytes b)) normalized_list))
       ≫= getitem0).
Proof.
  intros Hds Hs.
  assert (Hsorted : sorted fst d = Ok s) by now apply sorted_ascending.
  split; [assumption|].
  rewrite id_for_memo_PyDict. unfold id_for_memo_dict.
  rewrite Hsorted. reflexivity.
Qed.

(** C6, amended. Two dicts that hold the same entries in different insertion
    orders are encoded alike, that is [id_for_memo] returns the same byte
    sequence or raises the same error for both, provided [<] orders their
    keys strictly: the entries can be arranged so that every key is strictly
    below every later key (distinct text keys always can,
    [text_keys_ascending]).  [sorted] then returns that arrangement for both
    dicts, and the encoding is the serialization of the list that holds, for
    each key in that order, the encoding of the key followed by the encoding
    of its value.  In particular the encodings of [{"a": 3, "b": 4}] and
    [{"b": 4, "a": 3}] are equal, for every serializer. *)
Theorem id_for_memo_dict_insertion_order
    (serialize_object : value -> result (list bytes))
    (d1 d2 s : list (atom * value)) :
  Permutation d1 d2 -> Permutation d1 s -> ascending s ->
  id_for_memo serialize_object (PyDict d1) = id_for_memo serialize_object (PyDict d2) /\
  sorted fst d1 = Ok s /\ sorted fst d2 = Ok s /\
  id_for_memo serialize_object (PyDict d1) =
    (normalized_list ← normalize_items (id_for_memo serialize_object) s;
     serialize_object (PyList (map (fun b => Atom (PyBytes b)) normalized_list))
       ≫= getitem0) /\
  id_for_memo serialize_object (PyDict sample.dict_ab)
    = id_for_memo serialize_object (PyDict sample.dict_ba).
Proof.
  intros H12 H1s Hs.
  assert (H2s : Permutation d2 s) by now rewrite <- H12.
  destruct (id_for_memo_dict_sorted serialize_object d1 s H1s Hs) as [Hs1 He1].
  destruct (id_for_memo_dict_sorted serialize_object d2 s H2s Hs) as [Hs2 He2].
  split; [now rewrite He1, He2|].
  split; [assumption|]. split; [assumption|]. split; [assumption|].
  assert (Hab : ascending sample.dict_ab) by (repeat constructor; reflexivity).
  destruct (id_for_memo_dict_sorted serialize_object sample.dict_ab
              sample.dict_ab (Permutation_refl _) Hab) as [_ ->].
  destruct (id_for_memo_dict_sorted serialize_object sample.dict_ba
              sample.dict_ab (perm_swap _ _ _) Hab) as [_ ->].
  reflexivity.
Qed.

Lemma id_for_memo_dict_insertion_order_witness :
  id_for_memo sample.serialize_object (PyDict sample.dict_ab)
    = id_for_memo sample.serialize_object (PyDict sample.dict_ba) /\
  exists b : bytes,
    id_for_memo sample.serialize_object (PyDict sample.dict_ab) = Ok b.
Proof.
  split.
  - refine (proj1 (id_for_memo_dict_insertion_order sample.serialize_object
                     sample.dict_ab sample.dict_ba sample.dict_ab _ _ _)).
    + apply perm_swap.
    + apply Permutation_refl.
    + repeat constructor; reflexivity.
  - eexists. vm_compute. reflexivity.
Defined.

(** * Further properties *)

(** ** provider_base.py: job states and statuses *)

Lemma append_cancel_r (t : string) :
  forall s1 s2 : string, s1 ++ t = s2 ++ t -> s1 = s2.
Proof.
  intros s1 s2 H.
  assert (Hlen : String.length s1 = String.length s2).
  { apply (f_equal String.length) in H. rewrite !append_length in H. lia. }
  revert s2 H Hlen. induction s1 as [|c s1 IH]; intros [|c2 s2] H Hlen;
    simpl in *; try discriminate; [reflexivity|].
  injection H as -> H. f_equal. apply IH; [assumption | lia].
Qed.

Lemma append_cancel_l (p : string) :
  forall x y : string, p ++ x = p ++ y -> x = y.
Proof.
  induction p as [|c p IH]; intros x y H; [exact H|].
  change (String c (p ++ x) = String c (p ++ y)) in H.
  injection H as H. now apply IH.
Qed.

(** The eight members have distinct values, distinct integer codes and
    distinct display names, so none is an alias of another and a member can
    be recovered from its display name; the codes count from 0 in the order
    of definition. *)
Theorem JobState_no_alias :
  (forall s t : JobState, provider_base.value s = provider_base.value t -> s = t) /\
  (forall s t : JobState, fst (fst (provider_base.value s)) = fst (fst (provider_base.value t)) -> s = t) /\
  (forall s t : JobState, status_name s = status_name t -> s = t) /\
  map (fun s => fst (fst (provider_base.value s))) members = [0; 1; 2; 3; 4; 5; 6; 7].
Proof.
  split; [|split; [|split]].
  - intros [] []; simpl; intros H; try reflexivity; discriminate H.
  - intros [] []; simpl; intros H; try reflexivity; discriminate H.
  - intros [] []; simpl; intros H; try reflexivity; discriminate H.
  - reflexivity.
Qed.

(** A job status is terminal exactly when its status name is one of
    CANCELLED, COMPLETED, FAILED and TIMEOUT, whatever its message, exit code
    and log paths are. *)
Theorem JobStatus_terminal_by_name (self : JobStatus) :
  JobStatus_terminal self = true <->
  In (JobStatus_status_name self) ["CANCELLED"; "COMPLETED"; "FAILED"; "TIMEOUT"].
Proof.
  unfold JobStatus_terminal, JobStatus_status_name.
  destruct (state self); simpl; split; intros H; try reflexivity;
    try discriminate H; try tauto;
    repeat (destruct H as [H|H]; [discriminate H|]); destruct H.
Qed.

(** [repr] of a job status shows its state and its message and nothing else:
    two statuses print alike exactly when they have the same state and the
    same message, and a status without message differs from one whose
    message is empty. *)
Theorem JobStatus_repr_injective (a b : JobStatus) :
  __repr__ a = __repr__ b <-> state a = state b /\ message a = message b.
Proof.
  split.
  - unfold __repr__, JobState_str.
    destruct (state a), (state b), (message a) as [ma|], (message b) as [mb|];
      intros H; try discriminate H; try (split; reflexivity);
      try (exfalso; congruence);
      do 2 apply append_cancel_l in H; apply append_cancel_r in H;
      subst; split; reflexivity.
  - intros [Hs Hm]. unfold __repr__. now rewrite Hs, Hm.
Qed.

Lemma JobStatus_repr_injective_witness :
  __repr__ (mkJobStatus FAILED (Some "") None None None)
    <> __repr__ (mkJobStatus FAILED None None None None).
Proof.
  intros H.
  apply (proj1 (JobStatus_repr_injective
                  (mkJobStatus FAILED (Some "") None None None)
                  (mkJobStatus FAILED None None None None))) in H.
  destruct H as [_ H]. discriminate H.
Defined.

(** ** provider_base.py: reading the logs *)

Lemma _read_file_Ok (fs : filesystem) (path content : string) :
  fs path = Ok content ->
  _read_file fs path =
    Ok match decode true content with
       | Ok units => Some (text_of units)
       | Raise _ => None
       end.
Proof.
  intros Hfs. rewrite (_read_file_body fs path content Hfs). unfold read.
  cbn [buffer position]. change (Z.to_nat 0) with 0%nat.
  rewrite Nat.sub_0_r, substring_all.
  destruct (decode true content); reflexivity.
Qed.

(** Without a log path, or with an empty one, the four accessors return
    [None] and do not look at the file system. *)
Theorem logs_without_path (fs : filesystem) (self : JobStatus) :
  (stdout_path self = None \/ stdout_path self = Some "" ->
   stdout fs self = Ok None /\ stdout_summary fs self = Ok None) /\
  (stderr_path self = None \/ stderr_path self = Some "" ->
   stderr fs self = Ok None /\ stderr_summary fs self = Ok None).
Proof.
  unfold stdout, stdout_summary, stderr, stderr_summary.
  split; intros [H|H]; rewrite H; split; reflexivity.
Qed.

Lemma logs_without_path_witness :
  stdout (sample.failing PermissionError) (mkJobStatus FAILED None None None (Some ""))
    = Ok None /\
  stderr_summary (sample.failing PermissionError)
    (mkJobStatus FAILED None None None (Some "")) = Ok None.
Proof.
  split.
  - apply (proj1 (logs_without_path (sample.failing PermissionError)
                     (mkJobStatus FAILED None None None (Some "")))).
    left. reflexivity.
  - apply (proj2 (logs_without_path (sample.failing PermissionError)
                     (mkJobStatus FAILED None None None (Some "")))).
    right. reflexivity.
Defined.

(** [stdout] and [stderr] return the whole text of a readable log, of any
    size: all its bytes decoded, with every line end read as a line feed, and
    an absent value if the bytes cannot be decoded.  The text of a log of
    plain ASCII without carriage returns is its content. *)
Theorem stdout_stderr_whole_text (fs : filesystem) (self : JobStatus)
    (path content : string) :
  path <> "" -> fs path = Ok content ->
  (stdout_path self = Some path ->
   stdout fs self = Ok match decode true content with
                       | Ok units => Some (text_of units)
                       | Raise _ => None
                       end) /\
  (stderr_path self = Some path ->
   stderr fs self = Ok match decode true content with
                       | Ok units => Some (text_of units)
                       | Raise _ => None
                       end) /\
  (plain_ascii content = true ->
   (stdout_path self = Some path -> stdout fs self = Ok (Some content)) /\
   (stderr_path self = Some path -> stderr fs self = Ok (Some content))).
Proof.
  intros Hne Hfs. unfold stdout, stderr.
  split; [|split; [|intros Hplain; split]]; intros Hpath;
    rewrite Hpath, (truthy_Some _ Hne); cbn [from_option id];
    rewrite (_read_file_Ok fs path content Hfs); try reflexivity;
    now rewrite (decode_plain true content Hplain), text_of_one_byte_units.
Qed.

Lemma stdout_stderr_whole_text_witness :
  stdout (sample.holding (sample.filled 4000)) (sample.failed_job "job.stdout")
    = Ok (Some (sample.filled 4000)) /\
  stderr (sample.holding (sample.filled 4000)) (sample.failed_job "job.stdout")
    = Ok (Some (sample.filled 4000)) /\
  stdout (sample.holding sample.with_crlf) (sample.failed_job "job.stdout")
    = Ok (Some ("a" ++ line_feed ++ sample.repeated 2045 "x")).
Proof.
  assert (Hne : "job.stdout" <> "") by discriminate.
  destruct (stdout_stderr_whole_text (sample.holding (sample.filled 4000))
              (sample.failed_job "job.stdout") "job.stdout" (sample.filled 4000)
              Hne eq_refl) as (_ & _ & Hplain).
  destruct (Hplain ltac:(vm_compute; reflexivity)) as [Hout Herr].
  destruct (stdout_stderr_whole_text (sample.holding sample.with_crlf)
              (sample.failed_job "job.stdout") "job.stdout" sample.with_crlf
              Hne eq_refl) as (Hcrlf & _ & _).
  refine (conj (Hout eq_refl) (conj (Herr eq_refl) _)).
  rewrite (Hcrlf eq_refl). vm_compute. reflexivity.
Defined.

(** What a summary of a long text of plain ASCII is made of. *)
Lemma _read_summary_body_parts (content : string) :
  plain_ascii content = true ->
  SUMMARY_TRUNCATION_THRESHOLD < Z.of_nat (String.length content) ->
  exists head middle tail : string,
    _read_summary_body (mkTextIO content 0) = Ok (head ++ elision ++ tail) /\
    content = head ++ middle ++ tail /\
    String.length head = 1024%nat /\ String.length tail = 1024%nat /\
    String.length middle = (String.length content - 2048)%nat /\
    String.length (head ++ elision ++ tail) = 2053%nat.
Proof.
  intros Hplain Hlong. rewrite (_read_summary_body_long content Hplain Hlong).
  unfold SUMMARY_TRUNCATION_THRESHOLD in Hlong.
  set (n := String.length content) in *.
  exists (substring 0 1024 content), (substring 1024 (n - 2048) content),
         (substring (n - 1024) 1024 content).
  assert (Hh : String.length (substring 0 1024 content) = 1024%nat)
    by (rewrite substring_length; fold n; lia).
  assert (Ht : String.length (substring (n - 1024) 1024 content) = 1024%nat)
    by (rewrite substring_length; fold n; lia).
  assert (Hm : String.length (substring 1024 (n - 2048) content) = (n - 2048)%nat)
    by (rewrite substring_length; fold n; lia).
  split; [reflexivity|]. split; [|repeat split; try assumption].
  - rewrite <- (substring_all content) at 1. fold n.
    replace n with (1024 + ((n - 2048) + 1024))%nat at 1 by lia.
    rewrite (substring_split content 0 1024) by (fold n; lia).
    rewrite (substring_split content (0 + 1024) (n - 2048)) by (fold n; lia).
    replace (0 + 1024 + (n - 2048))%nat with (n - 1024)%nat by lia.
    reflexivity.
  - rewrite !append_length, Hh, Ht. reflexivity.
Qed.

(** The summaries of a readable log.  A log of at most 2048 bytes is
    returned whole, as the text that [stdout] returns, and an undecodable one
    raises [UnicodeDecodeError].  For plain ASCII without carriage returns,
    where a byte is a character: a text of at most 2048 bytes is its content;
    of a longer text the first 1024 and the last 1024 bytes are kept, which
    do not overlap, and the bytes between them, all but 2048, are replaced by
    the marker: the summary is 2053 bytes long, more than a text of 2049 to
    2052 bytes. *)
Theorem summary_of_readable_log (fs : filesystem) (self : JobStatus)
    (path content : string) :
  path <> "" -> fs path = Ok content ->
  (stdout_path self = Some path -> stdout_summary fs self = _read_summary fs path) /\
  (stderr_path self = Some path -> stderr_summary fs self = _read_summary fs path) /\
  ((String.length content <= 2048)%nat ->
   match decode true content with
   | Ok units =>
     _read_summary fs path = Ok (Some (text_of units)) /\
     _read_summary fs path = _read_file fs path
   | Raise _ => _read_summary fs path = Raise UnicodeDecodeError
   end) /\
  (plain_ascii content = true ->
   ((String.length content <= 2048)%nat ->
    _read_summary fs path = Ok (Some content)) /\
   ((2048 < String.length content)%nat ->
    exists head middle tail : string,
      _read_summary fs path = Ok (Some (head ++ elision ++ tail)) /\
      content = head ++ middle ++ tail /\
      String.length head = 1024%nat /\ String.length tail = 1024%nat /\
      String.length middle = (String.length content - 2048)%nat /\
      String.length (head ++ elision ++ tail) = 2053%nat)).
Proof.
  intros Hne Hfs.
  split; [|split; [|split]].
  - intros Hpath. unfold stdout_summary.
    now rewrite Hpath, (truthy_Some _ Hne).
  - intros Hpath. unfold stderr_summary.
    now rewrite Hpath, (truthy_Some _ Hne).
  - intros Hshort. rewrite (_read_summary_Ok fs path content Hne Hfs).
    rewrite (_read_file_Ok fs path content Hfs).
    rewrite _read_summary_body_whole
      by (unfold SUMMARY_TRUNCATION_THRESHOLD; lia).
    destruct (decode true content); [split|]; reflexivity.
  - intros Hplain. split.
    + intros Hshort. rewrite (_read_summary_Ok fs path content Hne Hfs).
      rewrite _read_summary_body_short; [reflexivity|assumption|].
      unfold SUMMARY_TRUNCATION_THRESHOLD. lia.
    + intros Hlong. rewrite (_read_summary_Ok fs path content Hne Hfs).
      destruct (_read_summary_body_parts content Hplain)
        as (h & m & t & Hbody & Hrest).
      { unfold SUMMARY_TRUNCATION_THRESHOLD. lia. }
      exists h, m, t. rewrite Hbody. split; [reflexivity | exact Hrest].
Qed.

Lemma summary_of_readable_log_witness :
  exists head middle tail : string,
    stdout_summary (sample.holding (sample.filled 2049)) (sample.failed_job "job.stdout")
      = Ok (Some (head ++ elision ++ tail)) /\
    String.length (sample.filled 2049) = 2049%nat /\
    String.length middle = 1%nat /\
    String.length (head ++ elision ++ tail) = 2053%nat.
Proof.
  assert (Hne : "job.stdout" <> "") by discriminate.
  destruct (summary_of_readable_log (sample.holding (sample.filled 2049))
              (sample.failed_job "job.stdout") "job.stdout" (sample.filled 2049)
              Hne eq_refl) as (Hout & _ & _ & Hplain).
  destruct (Hplain ltac:(vm_compute; reflexivity)) as [_ Hlong].
  destruct Hlong as (h & m & t & Hsum & _ & _ & _ & Hm & Hlen).
  { vm_compute. lia. }
  exists h, m, t. rewrite (Hout eq_refl), Hsum.
  split; [reflexivity|]. split; [vm_compute; reflexivity|].
  split; [rewrite Hm; vm_compute; reflexivity | exact Hlen].
Defined.

(** ** provider_base.py: the resource hints of a provider *)

(** A provider on which no setter was called reports both hints as unknown.
    A hint that was set is read back, the later of two settings of a hint is
    the one kept, and setting one hint leaves the other as it was, so the two
    can be set in either order. *)
Theorem resource_hints_set_get :
  mem_per_node ExecutionProvider_new = None /\
  cores_per_node ExecutionProvider_new = None /\
  (forall (self : ExecutionProvider) (m m' : spec_float) (c c' : Z),
     mem_per_node (set_mem_per_node self m) = Some m /\
     cores_per_node (set_cores_per_node self c) = Some c /\
     cores_per_node (set_mem_per_node self m) = cores_per_node self /\
     mem_per_node (set_cores_per_node self c) = mem_per_node self /\
     set_mem_per_node (set_mem_per_node self m) m' = set_mem_per_node self m' /\
     set_cores_per_node (set_cores_per_node self c) c' = set_cores_per_node self c' /\
     set_mem_per_node (set_cores_per_node self c) m
       = set_cores_per_node (set_mem_per_node self m) c).
Proof.
  split; [reflexivity|]. split; [reflexivity|].
  intros self m m' c c'. repeat split.
Qed.

(** ** memoization.py: the rules of the encoder *)

(** A text, an integer, a boolean (through the rule of [int]), a float,
    [None] and a plain function are encoded as the first buffer that the
    serializer returns for them: later buffers are ignored, an empty list of
    buffers is an [IndexError], and an error of the serializer is passed
    on. *)
Theorem id_for_memo_primitive
    (serialize_object : value -> result (list bytes)) (a : atom) :
  In (type (Atom a)) [t_str; t_int; t_bool; t_float; t_NoneType; t_FunctionType] ->
  dispatch (type (Atom a)) = impl_id_for_memo_serialize /\
  id_for_memo serialize_object (Atom a) =
    match serialize_object (Atom a) with
    | Ok (b :: _) => Ok b
    | Ok [] => Raise IndexError
    | Raise e => Raise e
    end.
Proof.
  intros Hin.
  assert (Hd : dispatch (type (Atom a)) = impl_id_for_memo_serialize).
  { destruct a; try reflexivity; exfalso; simpl in Hin;
      repeat (destruct Hin as [Hin|Hin]; [discriminate Hin|]); destruct Hin. }
  split; [exact Hd|].
  rewrite id_for_memo_eq. unfold id_for_memo_call. rewrite Hd.
  unfold id_for_memo_serialize.
  destruct (serialize_object (Atom a)) as [[|b bs]|e]; reflexivity.
Qed.

Lemma id_for_memo_primitive_witness :
  id_for_memo (fun _ => Ok []) (Atom (PyBool true)) = Raise IndexError /\
  id_for_memo (fun _ => Ok [[Byte.x01]; [Byte.x02]]) (Atom (PyBool true)) = Ok [Byte.x01].
Proof.
  split.
  - apply (proj2 (id_for_memo_primitive (fun _ => Ok []) (PyBool true)
                    ltac:(simpl; auto))).
  - apply (proj2 (id_for_memo_primitive (fun _ => Ok [[Byte.x01]; [Byte.x02]])
                    (PyBool true) ltac:(simpl; auto))).
Defined.

Section PartFacts.

Variable serialize_object : value -> result (list bytes).

Local Open Scope list_scope.

Lemma normalize_list_Ok_In (f : value -> result bytes) (l : list value)
    (nl : list bytes) :
  normalize_list f l = Ok nl -> forall e, In e l -> exists b, f e = Ok b.
Proof.
  revert nl. induction l as [|x l IH]; intros nl H e He; [destruct He|].
  simpl in H. destruct (f x) as [bx|] eqn:Hx; [|discriminate H].
  simpl in H. destruct (normalize_list f l) as [nl'|] eqn:Hl; [|discriminate H].
  destruct He as [<-|He]; [eauto | now apply (IH nl')].
Qed.

Lemma normalize_items_Ok_In (f : value -> result bytes) (l : list (atom * value))
    (nl : list bytes) :
  normalize_items f l = Ok nl ->
  forall k, In k l -> (exists b, f (Atom (fst k)) = Ok b) /\ (exists b, f (snd k) = Ok b).
Proof.
  revert nl. induction l as [|x l IH]; intros nl H k Hk; [destruct Hk|].
  simpl in H. destruct (f (Atom (fst x))) as [bk|] eqn:Hkx; [|discriminate H].
  simpl in H. destruct (f (snd x)) as [bv|] eqn:Hvx; [|discriminate H].
  simpl in H. destruct (normalize_items f l) as [nl'|] eqn:Hl; [|discriminate H].
  destruct Hk as [<-|Hk]; [eauto | now apply (IH nl')].
Qed.

Lemma id_for_memo_Ok_registered (obj : value) (b : bytes) :
  id_for_memo serialize_object obj = Ok b -> dispatch (type obj) <> impl_id_for_memo.
Proof.
  rewrite id_for_memo_eq. unfold id_for_memo_call.
  destruct (dispatch (type obj)); intros H; discriminate.
Qed.

Lemma id_for_memo_Ok_part (x obj : value) :
  part x obj ->
  forall b, id_for_memo serialize_object obj = Ok b ->
  exists bx, id_for_memo serialize_object x = Ok bx.
Proof.
  induction 1 as [|l e He _ IH|d k Hk _ IH|d k Hk _ IH]; intros b Hb.
  - eauto.
  - rewrite id_for_memo_PyList in Hb. unfold id_for_memo_list in Hb.
    destruct (normalize_list _ l) as [nl|] eqn:Hnl; [|discriminate Hb].
    destruct (normalize_list_Ok_In _ _ _ Hnl e He) as [be Hbe]. eauto.
  - rewrite id_for_memo_PyDict in Hb. unfold id_for_memo_dict in Hb.
    destruct (sorted fst d) as [keys|] eqn:Hkeys; [|discriminate Hb].
    simpl in Hb.
    destruct (normalize_items _ keys) as [nl|] eqn:Hnl; [|discriminate Hb].
    apply sorted_Permutation in Hkeys.
    destruct (normalize_items_Ok_In _ _ _ Hnl k (Permutation_in _ Hkeys Hk))
      as [[bk Hbk] _]. eauto.
  - rewrite id_for_memo_PyDict in Hb. unfold id_for_memo_dict in Hb.
    destruct (sorted fst d) as [keys|] eqn:Hkeys; [|discriminate Hb].
    simpl in Hb.
    destruct (normalize_items _ keys) as [nl|] eqn:Hnl; [|discriminate Hb].
    apply sorted_Permutation in Hkeys.
    destruct (normalize_items_Ok_In _ _ _ Hnl k (Permutation_in _ Hkeys Hk))
      as [_ [bv Hbv]]. eauto.
Qed.

End PartFacts.

(** A value is encoded only if every value in it is: when [id_for_memo]
    returns a byte sequence for a value, it returns one for each element, key
    and value that occurs in it at any depth, and each of them is of a kind
    with a registered rule.  A list or dict that holds a value without a rule
    anywhere is therefore never encoded. *)
Theorem id_for_memo_encodes_every_part
    (serialize_object : value -> result (list bytes)) (obj x : value) (b : bytes) :
  id_for_memo serialize_object obj = Ok b -> part x obj ->
  (exists bx : bytes, id_for_memo serialize_object x = Ok bx) /\
  dispatch (type x) <> impl_id_for_memo.
Proof.
  intros Hb Hpart.
  destruct (id_for_memo_Ok_part serialize_object x obj Hpart b Hb) as [bx Hbx].
  split; [eauto|]. eapply id_for_memo_Ok_registered. exact Hbx.
Qed.

Lemma id_for_memo_encodes_every_part_witness :
  (exists bx : bytes,
     id_for_memo sample.serialize_object (Atom (PyInt 4)) = Ok bx) /\
  dispatch (type (Atom (PyInt 4))) <> impl_id_for_memo.
Proof.
  refine (id_for_memo_encodes_every_part sample.serialize_object
            (PyList [PyDict sample.dict_ab]) (Atom (PyInt 4))
            (match id_for_memo sample.serialize_object (PyList [PyDict sample.dict_ab]) with
             | Ok b => b
             | Raise _ => []
             end) _ _).
  - vm_compute. reflexivity.
  - eapply part_element; [left; reflexivity|].
    eapply (part_value _ _ (PyStr "b", Atom (PyInt 4))); [right; left; reflexivity|].
    apply part_self.
Defined.

(** ** memoization.py: which keys can be sorted *)

Lemma py_lt_Ok_kind (a b : atom) (r : bool) :
  py_lt a b = Ok r -> exists c, kind_of a = Some c /\ kind_of b = Some c.
Proof.
  destruct a as [| | |[]| | | |], b as [| | |[]| | | |]; simpl; intros H;
    try discriminate H; eauto.
Qed.

Lemma py_lt_same_kind (a b : atom) (c : ordered_kind) :
  kind_of a = Some c -> kind_of b = Some c -> exists r, py_lt a b = Ok r.
Proof.
  destruct a as [| | |[]| | | |], b as [| | |[]| | | |]; simpl; intros Ha Hb;
    try discriminate Ha; try discriminate Hb; try congruence; eauto.
Qed.

Lemma py_lt_Raise (a b : atom) (e : exn) : py_lt a b = Raise e -> e = TypeError.
Proof.
  destruct a as [| | |[]| | | |], b as [| | |[]| | | |]; simpl; intros H;
    try discriminate H; congruence.
Qed.

Section SortedKinds.

Context {A : Type} (key : A -> atom).

Local Open Scope list_scope.

Lemma insert_Raise (x : A) (l : list A) (e : exn) :
  insert key x l = Raise e -> e = TypeError.
Proof.
  induction l as [|y l IH]; simpl; intros H; [discriminate H|].
  destruct (py_lt (key y) (key x)) as [[|]|e'] eqn:Hlt; simpl in H.
  - destruct (insert key x l); [discriminate H|]. simpl in H.
    injection H as <-. now apply IH.
  - discriminate H.
  - injection H as <-. eapply py_lt_Raise. exact Hlt.
Qed.

Lemma sorted_Raise (l : list A) (e : exn) :
  sorted key l = Raise e -> e = TypeError.
Proof.
  induction l as [|x l IH]; simpl; intros H; [discriminate H|].
  destruct (sorted key l) as [s|e']; simpl in H.
  - eapply insert_Raise. exact H.
  - injection H as <-. now apply IH.
Qed.

Lemma insert_same_kind (c : ordered_kind) (x : A) (l : list A) :
  kind_of (key x) = Some c -> Forall (fun y => kind_of (key y) = Some c) l ->
  exists r, insert key x l = Ok r.
Proof.
  intros Hx Hl. induction Hl as [|y l Hy _ [r IH]]; simpl; [eauto|].
  destruct (py_lt_same_kind (key y) (key x) c Hy Hx) as [[|] ->]; simpl; [|eauto].
  rewrite IH. simpl. eauto.
Qed.

Lemma sorted_same_kind (c : ordered_kind) (l : list A) :
  Forall (fun y => kind_of (key y) = Some c) l -> exists s, sorted key l = Ok s.
Proof.
  intros Hl. induction Hl as [|x l Hx Hl [s IH]]; simpl; [eauto|].
  rewrite IH. simpl. apply (insert_same_kind c); [assumption|].
  rewrite List.Forall_forall in Hl |- *. intros y Hy. apply Hl.
  eapply Permutation_in; [|exact Hy]. symmetry.
  now apply (sorted_Permutation key).
Qed.

Lemma sorted_Ok_kinds (l s : list A) :
  sorted key l = Ok s -> (2 <= length l)%nat ->
  exists c, Forall (fun y => kind_of (key y) = Some c) l.
Proof.
  revert s. induction l as [|x l IH]; intros s H Hlen; [simpl in Hlen; lia|].
  simpl in H. destruct (sorted key l) as [s'|] eqn:Hs'; [|discriminate H].
  simpl in H. pose proof (sorted_Permutation key l s' Hs') as Hperm.
  destruct s' as [|y s'].
  { apply Permutation_sym, Permutation_nil in Hperm. subst l. simpl in Hlen. lia. }
  simpl in H. destruct (py_lt (key y) (key x)) as [r|] eqn:Hlt; [|discriminate H].
  destruct (py_lt_Ok_kind _ _ _ Hlt) as (c & Hy & Hx).
  exists c. apply List.Forall_cons; [exact Hx|].
  destruct l as [|z [|z' l]].
  - constructor.
  - apply Permutation_length_1_inv in Hperm. injection Hperm as <- _.
    now repeat constructor.
  - destruct (IH _ eq_refl) as [c' Hc']; [simpl; lia|].
    assert (Hyin : In y (z :: z' :: l)).
    { eapply Permutation_in; [symmetry; exact Hperm | now left]. }
    rewrite List.Forall_forall in Hc'. pose proof (Hc' y Hyin) as Hy'.
    assert (c' = c) by congruence. subst c'.
    now rewrite List.Forall_forall.
Qed.

End SortedKinds.

(** Sorting decides which dicts can be encoded at all, among the dicts
    whose keys are of the kinds of [atom]: text, bytes, int, bool, float,
    [None], a plain function, an instance of a class that defines no
    ordering.  The keys of such a dict with at most one entry are never
    compared.  The keys of a larger one are sorted if they are all of one
    ordered kind: all text, all bytes or all numbers.  If they are not, for
    instance a text key beside an integer key, or two keys that are [None]
    and a function, the dict is not encoded: [id_for_memo] raises
    [TypeError], whatever the values and the serializer are.  Keys of other
    kinds, such as tuples, are not covered. *)
Theorem id_for_memo_dict_key_kinds
    (serialize_object : value -> result (list bytes)) (d : list (atom * value)) :
  ((length d <= 1)%nat \/
   (exists c, Forall (fun k => kind_of (fst k) = Some c) d) ->
   exists s, sorted fst d = Ok s /\ Permutation d s) /\
  ((2 <= length d)%nat ->
   ~ (exists c, Forall (fun k => kind_of (fst k) = Some c) d) ->
   id_for_memo serialize_object (PyDict d) = Raise TypeError).
Proof.
  split.
  - intros [Hlen|[c Hc]].
    + destruct d as [|k [|k' d]]; simpl in Hlen; try lia.
      * exists []. split; [reflexivity | constructor].
      * exists [k]. split; [reflexivity | apply Permutation_refl].
    + destruct (sorted_same_kind fst c d Hc) as [s Hs].
      exists s. split; [exact Hs | now apply (sorted_Permutation fst)].
  - intros Hlen Hmixed. rewrite id_for_memo_PyDict. unfold id_for_memo_dict.
    destruct (sorted fst d) as [s|e] eqn:Hs.
    + exfalso. apply Hmixed. eapply sorted_Ok_kinds; eassumption.
    + apply sorted_Raise in Hs. now subst e.
Qed.

Lemma id_for_memo_dict_key_kinds_witness :
  id_for_memo sample.serialize_object
    (PyDict [(PyInt 1, Atom (PyInt 0)); (PyStr "a", Atom (PyInt 0))])
  = Raise TypeError /\
  exists s,
    sorted fst [(PyNone, Atom (PyInt 1))] = Ok s /\
    Permutation [(PyNone, Atom (PyInt 1))] s.
Proof.
  split.
  - apply (proj2 (id_for_memo_dict_key_kinds sample.serialize_object
                    [(PyInt 1, Atom (PyInt 0)); (PyStr "a", Atom (PyInt 0))])).
    + simpl. lia.
    + intros [c Hc].
      apply Forall_cons_1 in Hc as [H1 Hc]. apply Forall_cons_1 in Hc as [H2 _].
      simpl in H1, H2. congruence.
  - apply (proj1 (id_for_memo_dict_key_kinds sample.serialize_object
                    [(PyNone, Atom (PyInt 1))])).
    left. simpl. lia.
Defined.

(** ** memoization.py: a dict and a list with the same encoding *)

Lemma normalize_list_interleave (f : value -> result bytes) (s : list (atom * value)) :
  normalize_list f (interleave s) = normalize_items f s.
Proof.
  induction s as [|k s IH]; [reflexivity|].
  change (interleave (k :: s)) with (Atom (fst k) :: snd k :: interleave s).
  cbn [normalize_list normalize_items]. rewrite IH.
  destruct (f (Atom (fst k))); [|reflexivity].
  destruct (f (snd k)); [|reflexivity].
  destruct (normalize_items f s); reflexivity.
Qed.

Lemma id_for_memo_PyList_cons
    (serialize_object : value -> result (list bytes)) (x y : value)
    (rest : list value) :
  id_for_memo serialize_object x = id_for_memo serialize_object y ->
  id_for_memo serialize_object (PyList (x :: rest))
    = id_for_memo serialize_object (PyList (y :: rest)).
Proof.
  intros H. rewrite !id_for_memo_PyList. unfold id_for_memo_list. simpl.
  now rewrite H.
Qed.

(** The encoder does not tell a dict from the list of its keys, in sorted
    order, each followed by its value: [{"a": 3}] and [["a", 3]], or [{}] and
    [[]], have the same encoding, with every serializer.  Two tasks that
    differ only in that an argument is such a dict in one and such a list in
    the other get the same hash. *)
Theorem id_for_memo_dict_as_list
    (serialize_object : value -> result (list bytes))
    (md5_hexdigest : bytes -> string)
    (d s : list (atom * value)) :
  Permutation d s -> ascending s ->
  id_for_memo serialize_object (PyDict d)
    = id_for_memo serialize_object (PyList (interleave s)) /\
  (forall (t1 t2 : Task) (rest : list value),
     func_name t1 = func_name t2 -> fn_hash t1 = fn_hash t2 ->
     kwargs t1 = kwargs t2 -> env t1 = env t2 ->
     args t1 = PyList (PyDict d :: rest) ->
     args t2 = PyList (PyList (interleave s) :: rest) ->
     make_hash serialize_object md5_hexdigest t1
       = make_hash serialize_object md5_hexdigest t2).
Proof.
  intros Hperm Hs.
  assert (Heq : id_for_memo serialize_object (PyDict d)
                = id_for_memo serialize_object (PyList (interleave s))).
  { destruct (id_for_memo_dict_sorted serialize_object d s Hperm Hs) as [_ ->].
    rewrite id_for_memo_PyList. unfold id_for_memo_list.
    now rewrite normalize_list_interleave. }
  split; [exact Heq|].
  intros t1 t2 rest Hf Hh Hk He Ha1 Ha2. unfold make_hash.
  rewrite Hf, Hh, Hk, He, Ha1, Ha2.
  now rewrite (id_for_memo_PyList_cons serialize_object _ _ rest Heq).
Qed.

Lemma id_for_memo_dict_as_list_witness :
  id_for_memo sample.serialize_object (PyDict [(PyStr "a", Atom (PyInt 3))])
  = id_for_memo sample.serialize_object (PyList [Atom (PyStr "a"); Atom (PyInt 3)]) /\
  id_for_memo sample.serialize_object (PyDict [])
  = id_for_memo sample.serialize_object (PyList []).
Proof.
  split.
  - apply (proj1 (id_for_memo_dict_as_list sample.serialize_object sample.hexdigest
                    [(PyStr "a", Atom (PyInt 3))] [(PyStr "a", Atom (PyInt 3))]
                    (Permutation_refl _) ltac:(repeat constructor))).
  - apply (proj1 (id_for_memo_dict_as_list sample.serialize_object sample.hexdigest
                    [] [] (Permutation_refl _) ltac:(constructor))).
Defined.

(** ** memoization.py: no two lists with the same encoding *)

Lemma positive_bytes_inj (p : positive) :
  forall q : positive, sample.positive_bytes p = sample.positive_bytes q -> p = q.
Proof.
  induction p as [p IH|p IH|]; intros [q|q|]; simpl; intros H;
    try discriminate H; try reflexivity; injection H as H; f_equal; now apply IH.
Qed.

Lemma as_bytes_Some (obj : value) (b : bytes) :
  sample.as_bytes obj = Some b -> obj = Atom (PyBytes b).
Proof.
  destruct obj as [[]| |]; simpl; intros H; try discriminate H. now injection H as ->.
Qed.

Lemma all_bytes_inj (l : list value) :
  forall (l' : list value) (bs : list bytes),
    sample.all_bytes l = Some bs -> sample.all_bytes l' = Some bs -> l = l'.
Proof.
  induction l as [|e l IH]; intros [|e' l'] bs; simpl; intros H H'.
  - reflexivity.
  - injection H as <-.
    destruct (sample.as_bytes e'), (sample.all_bytes l'); discriminate H'.
  - injection H' as <-.
    destruct (sample.as_bytes e), (sample.all_bytes l); discriminate H.
  - destruct (sample.as_bytes e) as [b|] eqn:He; [|discriminate H].
    destruct (sample.all_bytes l) as [bs0|] eqn:Hl; [|discriminate H].
    destruct (sample.as_bytes e') as [b'|] eqn:He'; [|discriminate H'].
    destruct (sample.all_bytes l') as [bs0'|] eqn:Hl'; [|discriminate H'].
    injection H as <-. injection H' as Hb Hbs. subst b' bs0'.
    apply as_bytes_Some in He, He'. subst e e'. f_equal.
    now apply (IH l' bs0).
Qed.

Lemma flat_view_inj (x y : value) (v : atom + list bytes) :
  sample.flat_view x = Some v -> sample.flat_view y = Some v -> x = y.
Proof.
  destruct x as [a|l|d], y as [a'|l'|d']; simpl; intros Hx Hy;
    try discriminate Hx; try discriminate Hy.
  - congruence.
  - destruct (sample.all_bytes l'); simpl in Hy; [|discriminate Hy]. congruence.
  - destruct (sample.all_bytes l); simpl in Hx; [|discriminate Hx]. congruence.
  - destruct (sample.all_bytes l) as [bs|] eqn:Hl; simpl in Hx; [|discriminate Hx].
    destruct (sample.all_bytes l') as [bs'|] eqn:Hl'; simpl in Hy; [|discriminate Hy].
    assert (bs' = bs) by congruence. subst bs'.
    f_equal. now apply (all_bytes_inj l l' bs).
Qed.

Lemma serialize_apart_tells_apart : tells_apart sample.serialize_apart.
Proof.
  intros x y b. unfold id_for_memo_serialize, sample.serialize_apart.
  destruct (sample.flat_view x) as [vx|] eqn:Hx; [|discriminate].
  destruct (sample.flat_view y) as [vy|] eqn:Hy; [|discriminate].
  simpl. intros Hbx Hby. injection Hbx as <-. injection Hby as Hb.
  apply positive_bytes_inj, (inj encode) in Hb. subst vy.
  now apply (flat_view_inj x y vx).
Qed.

Section Injective.

Variable serialize_object : value -> result (list bytes).
Hypothesis Happart : tells_apart serialize_object.

Local Open Scope list_scope.

Lemma id_for_memo_Atom_Ok (a : atom) (b : bytes) :
  id_for_memo serialize_object (Atom a) = Ok b ->
  id_for_memo_serialize serialize_object (Atom a) = Ok b.
Proof.
  rewrite id_for_memo_eq. unfold id_for_memo_call.
  destruct (dispatch (type (Atom a))); intros H; try discriminate H; exact H.
Qed.

Lemma id_for_memo_PyList_Ok (l : list value) (b : bytes) :
  id_for_memo serialize_object (PyList l) = Ok b ->
  exists nl : list bytes,
    normalize_list (id_for_memo serialize_object) l = Ok nl /\
    id_for_memo_serialize serialize_object
      (PyList (map (fun b => Atom (PyBytes b)) nl)) = Ok b.
Proof.
  rewrite id_for_memo_PyList. unfold id_for_memo_list.
  destruct (normalize_list _ l) as [nl|]; [|discriminate].
  intros H. exists nl. split; [reflexivity | exact H].
Qed.

Lemma map_PyBytes_inj (nl nl' : list bytes) :
  map (fun b => Atom (PyBytes b)) nl = map (fun b => Atom (PyBytes b)) nl' ->
  nl = nl'.
Proof.
  revert nl'. induction nl as [|b nl IH]; intros [|b' nl'] H;
    try discriminate H; [reflexivity|].
  simpl in H. injection H as -> H. f_equal. now apply IH.
Qed.

Lemma normalize_list_inj (f : value -> result bytes) (l : list value) :
  forall (l' : list value) (nl : list bytes),
    (forall e e' b, In e l -> In e' l' -> f e = Ok b -> f e' = Ok b -> e = e') ->
    normalize_list f l = Ok nl -> normalize_list f l' = Ok nl -> l = l'.
Proof.
  induction l as [|e l IH]; intros [|e' l'] nl Hinj H H'; simpl in H, H'.
  - reflexivity.
  - injection H as <-.
    destruct (f e'); [|discriminate H']. simpl in H'.
    destruct (normalize_list f l'); discriminate H'.
  - injection H' as <-.
    destruct (f e); [|discriminate H]. simpl in H.
    destruct (normalize_list f l); discriminate H.
  - destruct (f e) as [b|] eqn:He; [|discriminate H]. simpl in H.
    destruct (normalize_list f l) as [nl0|] eqn:Hl; [|discriminate H].
    destruct (f e') as [b'|] eqn:He'; [|discriminate H']. simpl in H'.
    destruct (normalize_list f l') as [nl0'|] eqn:Hl'; [|discriminate H'].
    injection H as <-. injection H' as Hb Hnl. subst b' nl0'.
    f_equal.
    + apply (Hinj e e' b); [now left | now left | assumption | assumption].
    + apply (IH l' nl0); [|reflexivity | assumption].
      intros x x' bx Hx Hx'. apply Hinj; now right.
Qed.

Lemma id_for_memo_injective_within (n : nat) :
  forall (x y : value) (b : bytes),
    (depth x < n)%nat -> dict_free x = true -> dict_free y = true ->
    id_for_memo serialize_object x = Ok b ->
    id_for_memo serialize_object y = Ok b -> x = y.
Proof.
  induction n as [|n IH]; intros x y b Hn Hx Hy Hbx Hby; [lia|].
  destruct x as [a|l|d], y as [a'|l'|d']; try discriminate Hx; try discriminate Hy.
  - apply id_for_memo_Atom_Ok in Hbx, Hby. now apply (Happart _ _ b).
  - apply id_for_memo_Atom_Ok in Hbx.
    apply id_for_memo_PyList_Ok in Hby as (nl & _ & Hby).
    discriminate (Happart _ _ b Hbx Hby).
  - apply id_for_memo_Atom_Ok in Hby.
    apply id_for_memo_PyList_Ok in Hbx as (nl & _ & Hbx).
    discriminate (Happart _ _ b Hbx Hby).
  - apply id_for_memo_PyList_Ok in Hbx as (nl & Hnl & Hbx).
    apply id_for_memo_PyList_Ok in Hby as (nl' & Hnl' & Hby).
    pose proof (Happart _ _ b Hbx Hby) as Heq. injection Heq as Heq.
    apply map_PyBytes_inj in Heq. subst nl'.
    f_equal.
    apply (normalize_list_inj (id_for_memo serialize_object) l l' nl);
      [|assumption|assumption].
    intros e e' be He He' Hbe Hbe'.
    simpl in Hx, Hy. rewrite forallb_forall in Hx, Hy.
    apply (IH e e' be); auto.
    apply depth_list_lt in He. lia.
Qed.

End Injective.

(** With a serializer that tells values apart, the encoder tells apart all
    values made of primitives and lists: two such values with the same
    encoding are equal.  So the order and the number of the elements of a
    list matter, at every depth, an integer is told from the boolean and from
    the float equal to it, and a list is told from each of its elements. *)
Theorem id_for_memo_injective
    (serialize_object : value -> result (list bytes)) (x y : value) (b : bytes) :
  tells_apart serialize_object ->
  dict_free x = true -> dict_free y = true ->
  id_for_memo serialize_object x = Ok b ->
  id_for_memo serialize_object y = Ok b -> x = y.
Proof.
  intros Happart Hx Hy Hbx Hby.
  apply (id_for_memo_injective_within serialize_object Happart (S (depth x)) x y b);
    auto.
Qed.

Lemma id_for_memo_injective_witness :
  id_for_memo sample.serialize_apart (PyList [Atom (PyInt 1); Atom (PyInt 2)])
    <> id_for_memo sample.serialize_apart (PyList [Atom (PyInt 2); Atom (PyInt 1)]) /\
  id_for_memo sample.serialize_apart (PyList [Atom (PyInt 1)])
    <> id_for_memo sample.serialize_apart (PyList [Atom (PyBool true)]).
Proof.
  split; intros H.
  - assert (Heq : PyList [Atom (PyInt 1); Atom (PyInt 2)]
                  = PyList [Atom (PyInt 2); Atom (PyInt 1)]).
    { apply (id_for_memo_injective sample.serialize_apart
               (PyList [Atom (PyInt 1); Atom (PyInt 2)])
               (PyList [Atom (PyInt 2); Atom (PyInt 1)])
               (match id_for_memo sample.serialize_apart
                        (PyList [Atom (PyInt 1); Atom (PyInt 2)]) with
                | Ok b => b
                | Raise _ => []
                end) serialize_apart_tells_apart eq_refl eq_refl).
      - vm_compute. reflexivity.
      - rewrite <- H. vm_compute. reflexivity. }
    discriminate Heq.
  - assert (Heq : PyList [Atom (PyInt 1)] = PyList [Atom (PyBool true)]).
    { apply (id_for_memo_injective sample.serialize_apart
               (PyList [Atom (PyInt 1)]) (PyList [Atom (PyBool true)])
               (match id_for_memo sample.serialize_apart (PyList [Atom (PyInt 1)]) with
                | Ok b => b
                | Raise _ => []
                end) serialize_apart_tells_apart eq_refl eq_refl).
      - vm_compute. reflexivity.
      - rewrite <- H. vm_compute. reflexivity. }
    discriminate Heq.
Defined.

(** ** memoization.py: hashing a task *)

Section MemoizerMore.

Variable serialize_object : value -> result (list bytes).
Variable md5_hexdigest : bytes -> string.

Local Open Scope list_scope.

Lemma make_hash_fields (t t' : Task) :
  func_name t = func_name t' -> fn_hash t = fn_hash t' -> args t = args t' ->
  kwargs t = kwargs t' -> env t = env t' ->
  make_hash serialize_object md5_hexdigest t
    = make_hash serialize_object md5_hexdigest t'.
Proof. intros H1 H2 H3 H4 H5. unfold make_hash. now rewrite H1, H2, H3, H4, H5. Qed.

Lemma make_hash_Ok (t : Task) (h : string) :
  make_hash serialize_object md5_hexdigest t = Ok h <->
  exists t0 t1 t2 t3 t4 : bytes,
    id_for_memo serialize_object (func_name t) = Ok t0 /\
    id_for_memo serialize_object (fn_hash t) = Ok t1 /\
    id_for_memo serialize_object (args t) = Ok t2 /\
    id_for_memo serialize_object (kwargs t) = Ok t3 /\
    id_for_memo serialize_object (env t) = Ok t4 /\
    h = md5_hexdigest (t0 ++ t1 ++ t2 ++ t3 ++ t4).
Proof.
  unfold make_hash. split.
  - destruct (id_for_memo serialize_object (func_name t)) as [t0|]; [|discriminate].
    destruct (id_for_memo serialize_object (fn_hash t)) as [t1|]; [|discriminate].
    destruct (id_for_memo serialize_object (args t)) as [t2|]; [|discriminate].
    destruct (id_for_memo serialize_object (kwargs t)) as [t3|]; [|discriminate].
    destruct (id_for_memo serialize_object (env t)) as [t4|]; [|discriminate].
    simpl. intros H. injection H as <-.
    exists t0, t1, t2, t3, t4. rewrite app_nil_r. repeat split.
  - intros (t0 & t1 & t2 & t3 & t4 & -> & -> & -> & -> & -> & ->).
    simpl. now rewrite app_nil_r.
Qed.

End MemoizerMore.

(** [make_hash] returns a hash exactly when each of the five fields
    [func_name], [fn_hash], [args], [kwargs] and [env] is encoded, and the
    hash is then the digest of the five encodings joined in this order.  When
    it raises, [check_memo] on an enabled task raises the same error and
    leaves the Memoizer and the task, its hashsum included, as they were. *)
Theorem make_hash_all_fields
    (serialize_object : value -> result (list bytes))
    (md5_hexdigest : bytes -> string)
    (self : Memoizer) (task_id : Z) (task : Task) :
  (forall h : string,
     make_hash serialize_object md5_hexdigest task = Ok h <->
     exists t0 t1 t2 t3 t4 : bytes,
       id_for_memo serialize_object (func_name task) = Ok t0 /\
       id_for_memo serialize_object (fn_hash task) = Ok t1 /\
       id_for_memo serialize_object (args task) = Ok t2 /\
       id_for_memo serialize_object (kwargs task) = Ok t3 /\
       id_for_memo serialize_object (env task) = Ok t4 /\
       h = md5_hexdigest (t0 ++ t1 ++ t2 ++ t3 ++ t4)%list) /\
  (forall e : exn,
     self_memoize self = true -> memoize task = true ->
     make_hash serialize_object md5_hexdigest task = Raise e ->
     check_memo serialize_object md5_hexdigest self task_id task
       = (self, task, Raise e)).
Proof.
  split.
  - intros h. apply make_hash_Ok.
  - intros e Hself Htask Hraise. unfold check_memo.
    now rewrite Hself, Htask, Hraise.
Qed.

Lemma make_hash_all_fields_witness :
  check_memo sample.serialize_object sample.hexdigest (__init__ true ∅) 3 sample.task_g
  = (__init__ true ∅, sample.task_g, Raise ValueError).
Proof.
  apply (proj2 (make_hash_all_fields sample.serialize_object sample.hexdigest
                  (__init__ true ∅) 3 sample.task_g));
    [reflexivity | reflexivity | vm_compute; reflexivity].
Defined.

(** ** memoization.py: how the operations of the Memoizer compose *)

(** [check_memo] can be repeated: a second call on the task as the first call
    left it returns or raises the same and changes nothing more.  It never
    changes the Memoizer. *)
Theorem check_memo_idempotent
    (serialize_object : value -> result (list bytes))
    (md5_hexdigest : bytes -> string)
    (self : Memoizer) (task_id task_id' : Z) (task : Task) :
  let '(self1, task1, outcome) :=
    check_memo serialize_object md5_hexdigest self task_id task in
  self1 = self /\
  check_memo serialize_object md5_hexdigest self1 task_id' task1
    = (self1, task1, outcome).
Proof.
  unfold check_memo.
  destruct (negb (self_memoize self) || negb (memoize task)) eqn:Hoff.
  - split; [reflexivity|]. cbn [memoize set_hashsum]. now rewrite Hoff.
  - destruct (make_hash serialize_object md5_hexdigest task) as [h|e] eqn:Hh.
    + destruct (memo_lookup_table self !! Some h) as [cached|] eqn:Hc;
        (split; [reflexivity|]); cbn [memoize set_hashsum]; rewrite Hoff;
        change (make_hash serialize_object md5_hexdigest (set_hashsum task (Some h)))
          with (make_hash serialize_object md5_hexdigest task);
        rewrite Hh, Hc; reflexivity.
    + split; [reflexivity|]. now rewrite Hoff, Hh.
Qed.

(** After [update_memo] for an enabled task, [hash_lookup] of the task's
    hashsum returns the stored result, whether or not the key had an entry
    before, and every other key of the table is as it was. *)
Theorem hash_lookup_after_update_memo (self : Memoizer) (task_id : Z)
    (task : Task) (r : value) :
  self_memoize self = true -> memoize task = true ->
  hash_lookup (update_memo self task_id task r) (hashsum task)
    = (update_memo self task_id task r, Ok r) /\
  (forall k : option string,
     k <> hashsum task ->
     memo_lookup_table (update_memo self task_id task r) !! k
       = memo_lookup_table self !! k) /\
  self_memoize (update_memo self task_id task r) = true.
Proof.
  intros Hself Htask. rewrite (update_memo_enabled self task_id task r Hself Htask).
  split; [|split].
  - unfold hash_lookup. simpl. now rewrite lookup_insert_eq.
  - intros k Hk. simpl. now rewrite lookup_insert_ne.
  - reflexivity.
Qed.

Lemma hash_lookup_after_update_memo_witness :
  hash_lookup
    (update_memo (__init__ true ∅) 0
       (set_hashsum sample.task_f (Some sample.task_f_hash)) (Atom (PyInt 42)))
    (Some sample.task_f_hash)
  = (update_memo (__init__ true ∅) 0
       (set_hashsum sample.task_f (Some sample.task_f_hash)) (Atom (PyInt 42)),
     Ok (Atom (PyInt 42))).
Proof.
  exact (proj1 (hash_lookup_after_update_memo (__init__ true ∅) 0
                  (set_hashsum sample.task_f (Some sample.task_f_hash))
                  (Atom (PyInt 42)) eq_refl eq_refl)).
Defined.

(** The last write wins: of two updates under the same hashsum only the
    second one shows in the Memoizer, and two updates under different
    hashsums can be made in either order. *)
Theorem update_memo_last_write_wins (self : Memoizer) (task_id task_id' : Z)
    (task task' : Task) (r r' : value) :
  self_memoize self = true -> memoize task = true -> memoize task' = true ->
  (hashsum task = hashsum task' ->
   update_memo (update_memo self task_id task r) task_id' task' r'
     = update_memo self task_id' task' r') /\
  (hashsum task <> hashsum task' ->
   update_memo (update_memo self task_id task r) task_id' task' r'
     = update_memo (update_memo self task_id' task' r') task_id task r).
Proof.
  intros Hself Htask Htask'.
  rewrite (update_memo_enabled self task_id task r Hself Htask).
  rewrite (update_memo_enabled self task_id' task' r' Hself Htask').
  rewrite !update_memo_enabled by (assumption || reflexivity). simpl.
  split; intros Hk.
  - rewrite Hk. now rewrite insert_insert_eq.
  - f_equal. now apply insert_insert_ne.
Qed.

Lemma update_memo_last_write_wins_witness :
  update_memo
    (update_memo (__init__ true ∅) 0
       (set_hashsum sample.task_f (Some sample.task_f_hash)) (Atom (PyInt 41)))
    1 (set_hashsum sample.task_f (Some sample.task_f_hash)) (Atom (PyInt 42))
  = update_memo (__init__ true ∅) 1
      (set_hashsum sample.task_f (Some sample.task_f_hash)) (Atom (PyInt 42)).
Proof.
  apply (proj1 (update_memo_last_write_wins (__init__ true ∅) 0 1
                  (set_hashsum sample.task_f (Some sample.task_f_hash))
                  (set_hashsum sample.task_f (Some sample.task_f_hash))
                  (Atom (PyInt 41)) (Atom (PyInt 42)) eq_refl eq_refl eq_refl)).
  reflexivity.
Defined.

(** An enabled task whose hashsum is still [None] is stored under the key
    [None].  No [check_memo] reads that entry: every later [check_memo]
    returns what it would have returned without the update; only
    [hash_lookup(None)] finds it. *)
Theorem update_memo_without_hashsum
    (serialize_object : value -> result (list bytes))
    (md5_hexdigest : bytes -> string)
    (self : Memoizer) (task_id task_id' : Z) (task task' : Task) (r : value) :
  self_memoize self = true -> memoize task = true -> hashsum task = None ->
  let self' := update_memo self task_id task r in
  hash_lookup self' None = (self', Ok r) /\
  snd (check_memo serialize_object md5_hexdigest self' task_id' task')
    = snd (check_memo serialize_object md5_hexdigest self task_id' task') /\
  snd (fst (check_memo serialize_object md5_hexdigest self' task_id' task'))
    = snd (fst (check_memo serialize_object md5_hexdigest self task_id' task')).
Proof.
  intros Hself Htask Hnone self'.
  assert (Hself' : self' = mkMemoizer true (<[None := r]> (memo_lookup_table self))).
  { unfold self'. rewrite update_memo_enabled by assumption. now rewrite Hnone. }
  rewrite Hself'. split.
  - unfold hash_lookup. simpl. now rewrite lookup_insert_eq.
  - unfold check_memo. simpl. rewrite Hself. simpl.
    destruct (negb (memoize task')); [split; reflexivity|].
    destruct (make_hash serialize_object md5_hexdigest task') as [h|e];
      [|split; reflexivity].
    rewrite lookup_insert_ne by discriminate.
    destruct (memo_lookup_table self !! Some h); split; reflexivity.
Qed.

Lemma update_memo_without_hashsum_witness :
  hash_lookup (update_memo (__init__ true ∅) 0 sample.task_f (Atom (PyInt 42))) None
    = (update_memo (__init__ true ∅) 0 sample.task_f (Atom (PyInt 42)),
       Ok (Atom (PyInt 42))) /\
  snd (check_memo sample.serialize_object sample.hexdigest
         (update_memo (__init__ true ∅) 0 sample.task_f (Atom (PyInt 42)))
         1 sample.task_f)
    = snd (check_memo sample.serialize_object sample.hexdigest (__init__ true ∅)
             1 sample.task_f).
Proof.
  destruct (update_memo_without_hashsum sample.serialize_object sample.hexdigest
              (__init__ true ∅) 0 1 sample.task_f sample.task_f (Atom (PyInt 42))
              eq_refl eq_refl eq_refl) as (H1 & H2 & _).
  exact (conj H1 H2).
Defined.

(** A Memoizer constructed with memoization on answers from its checkpoint:
    [check_memo] on an enabled task whose hash is a key of the checkpoint
    returns [(True, r)] with the value [r] of the checkpoint, before any
    [update_memo]. *)
Theorem check_memo_from_checkpoint
    (serialize_object : value -> result (list bytes))
    (md5_hexdigest : bytes -> string)
    (checkpoint : gmap (option string) value)
    (task_id : Z) (task : Task) (h : string) (r : value) :
  memoize task = true ->
  make_hash serialize_object md5_hexdigest task = Ok h ->
  checkpoint !! Some h = Some r ->
  memo_lookup_table (__init__ true checkpoint) = checkpoint /\
  check_memo serialize_object md5_hexdigest (__init__ true checkpoint) task_id task
    = (__init__ true checkpoint, set_hashsum task (Some h), Ok (true, r)).
Proof.
  intros Htask Hh Hr. split; [reflexivity|].
  rewrite (check_memo_enabled serialize_object md5_hexdigest _ task_id task h);
    [|reflexivity|assumption|assumption].
  simpl. now rewrite Hr.
Qed.

Lemma check_memo_from_checkpoint_witness :
  check_memo sample.serialize_object sample.hexdigest
    (__init__ true {[Some sample.task_f_hash := Atom (PyInt 42)]}) 5 sample.task_f
  = (__init__ true {[Some sample.task_f_hash := Atom (PyInt 42)]},
     set_hashsum sample.task_f (Some sample.task_f_hash), Ok (true, Atom (PyInt 42))).
Proof.
  apply (proj2 (check_memo_from_checkpoint sample.serialize_object sample.hexdigest
                  {[Some sample.task_f_hash := Atom (PyInt 42)]} 5 sample.task_f
                  sample.task_f_hash (Atom (PyInt 42)) eq_refl
                  ltac:(vm_compute; reflexivity) ltac:(vm_compute; reflexivity))).
Defined.

(** The round of a task through the Memoizer: [check_memo] on an enabled task
    writes the hashsum that [update_memo] then stores the result under, so
    that [check_memo] on any enabled task with the same function name,
    function hash, arguments, keyword arguments and environment returns
    [(True, r)], whatever the table held for that hash before. *)
Theorem check_update_check
    (serialize_object : value -> result (list bytes))
    (md5_hexdigest : bytes -> string)
    (self : Memoizer) (task_id task_id' : Z) (task task' : Task) (h : string)
    (r : value) :
  self_memoize self = true -> memoize task = true -> memoize task' = true ->
  make_hash serialize_object md5_hexdigest task = Ok h ->
  func_name task' = func_name task -> fn_hash task' = fn_hash task ->
  args task' = args task -> kwargs task' = kwargs task -> env task' = env task ->
  let '(self1, task1, _) :=
    check_memo serialize_object md5_hexdigest self task_id task in
  let self2 := update_memo self1 task_id task1 r in
  hashsum task1 = Some h /\
  check_memo serialize_object md5_hexdigest self2 task_id' task'
    = (self2, set_hashsum task' (Some h), Ok (true, r)).
Proof.
  intros Hself Htask Htask' Hh Hf Hfh Ha Hk He.
  rewrite (check_memo_enabled serialize_object md5_hexdigest self task_id task h)
    by assumption.
  split; [reflexivity|].
  rewrite (update_memo_enabled self task_id (set_hashsum task (Some h)) r)
    by assumption.
  assert (Hh' : make_hash serialize_object md5_hexdigest task' = Ok h).
  { rewrite <- Hh. now apply make_hash_fields. }
  rewrite (check_memo_enabled serialize_object md5_hexdigest _ task_id' task' h);
    [|reflexivity|assumption|assumption].
  simpl. now rewrite lookup_insert_eq.
Qed.

Lemma check_update_check_witness :
  check_memo sample.serialize_object sample.hexdigest
    (update_memo (__init__ true ∅) 0
       (set_hashsum sample.task_f (Some sample.task_f_hash)) (Atom (PyInt 42)))
    1 sample.task_f
  = (update_memo (__init__ true ∅) 0
       (set_hashsum sample.task_f (Some sample.task_f_hash)) (Atom (PyInt 42)),
     set_hashsum sample.task_f (Some sample.task_f_hash),
     Ok (true, Atom (PyInt 42))).
Proof.
  pose proof (check_update_check sample.serialize_object sample.hexdigest
                (__init__ true ∅) 0 1 sample.task_f sample.task_f
                sample.task_f_hash (Atom (PyInt 42)) eq_refl eq_refl eq_refl
                ltac:(vm_compute; reflexivity)
                eq_refl eq_refl eq_refl eq_refl eq_refl) as H.
  change (check_memo sample.serialize_object sample.hexdigest (__init__ true ∅) 0
            sample.task_f)
    with (__init__ true ∅, set_hashsum sample.task_f (Some sample.task_f_hash),
          Ok (false, Atom PyNone) : result (bool * value)) in H.
  exact (proj2 H).
Defined.

(** ** memoization.py: the elements of a list, in order *)

Lemma normalize_list_Forall2 (f : value -> result bytes) (l : list value)
    (nl : list bytes) :
  Forall2 (fun x b => f x = Ok b) l nl -> normalize_list f l = Ok nl.
Proof.
  induction 1 as [|x b l nl Hx _ IH]; [reflexivity|].
  simpl. now rewrite Hx, IH.
Qed.

Lemma normalize_list_first_error (f : value -> result bytes)
    (l1 l2 : list value) (e : value) (err : exn) :
  Forall (fun x => exists b, f x = Ok b) l1 -> f e = Raise err ->
  normalize_list f (l1 ++ e :: l2)%list = Raise err.
Proof.
  intros Hl1 He. induction Hl1 as [|x l1 [b Hx] _ IH]; simpl.
  - now rewrite He.
  - now rewrite Hx, IH.
Qed.

(** A list is encoded from the encodings of its elements, taken in order:
    when every element is encoded, the list's encoding is the first buffer of
    the serialization of the list of these byte sequences; otherwise the
    list raises the error of the first element that is not encoded, and
    neither the later elements nor the serializer of the list are reached. *)
Theorem id_for_memo_list_in_order
    (serialize_object : value -> result (list bytes)) :
  (forall (l : list value) (nl : list bytes),
     Forall2 (fun x b => id_for_memo serialize_object x = Ok b) l nl ->
     id_for_memo serialize_object (PyList l)
       = id_for_memo_serialize serialize_object
           (PyList (map (fun b => Atom (PyBytes b)) nl))) /\
  (forall (l1 l2 : list value) (e : value) (err : exn),
     Forall (fun x => exists b, id_for_memo serialize_object x = Ok b) l1 ->
     id_for_memo serialize_object e = Raise err ->
     id_for_memo serialize_object (PyList (l1 ++ e :: l2)%list) = Raise err).
Proof.
  split.
  - intros l nl Hl. rewrite id_for_memo_PyList. unfold id_for_memo_list.
    now rewrite (normalize_list_Forall2 _ l nl Hl).
  - intros l1 l2 e err Hl1 He. rewrite id_for_memo_PyList. unfold id_for_memo_list.
    now rewrite (normalize_list_first_error _ l1 l2 e err Hl1 He).
Qed.

Lemma id_for_memo_list_in_order_witness :
  id_for_memo (fun _ => Raise KeyError)
    (PyList [Atom (PyObject "Widget"); Atom (PyInt 1)]) = Raise ValueError.
Proof.
  apply (proj2 (id_for_memo_list_in_order (fun _ => Raise KeyError))
           [] [Atom (PyInt 1)] (Atom (PyObject "Widget")) ValueError).
  - constructor.
  - reflexivity.
Defined.
